(** * Thread aggregation for the Gmail-style and Graph-style providers

    A shallow embedding of
    [apps/web/app/api/outlook/threads/controller.ts] ([getThreads],
    [getOutlookThreads], [getLabelIds]), of the route
    [apps/web/app/api/outlook/threads/route.ts] ([GET]) and of the
    response mapping of [apps/web/app/api/v1/reply-tracker/route.ts],
    followed by the properties of the thread pipeline that the code
    satisfies or violates. *)

From Stdlib Require Import ZArith.
From stdpp Require Import base option list strings gmap.

Local Open Scope Z_scope.

(** * JavaScript values

    Optional strings ([string | null | undefined]) are [option string];
    the tests [if (x)], [x || d] and [!x] go through truthiness, under
    which the empty string counts as absent. *)

Module JS.

Definition truthy_str (s : string) : bool := negb (String.eqb s "").

Definition truthy (o : option string) : bool :=
  match o with
  | Some s => truthy_str s
  | None => false
  end.

(** [x || undefined] and [x || null] on an optional string. *)
Definition or_absent (o : option string) : option string :=
  if truthy o then o else None.

(** [x || ""] on an optional string. *)
Definition or_empty (o : option string) : string :=
  match o with
  | Some s => s
  | None => ""
  end.

(** [n || d] on an optional number: [0] is falsy. *)
Definition num_or (n : option Z) (d : Z) : Z :=
  match n with
  | Some k => if Z.eqb k 0 then d else k
  | None => d
  end.

(** [xs || []] on an optional array. *)
Definition or_nil {A} (xs : option (list A)) : list A :=
  match xs with
  | Some l => l
  | None => []
  end.

(** [hay.includes(needle)]. *)
Fixpoint includes (needle hay : string) : bool :=
  String.prefix needle hay ||
  match hay with
  | EmptyString => false
  | String _ rest => includes needle rest
  end.

(** [parts.join(sep)]. *)
Fixpoint join (sep : string) (parts : list string) : string :=
  match parts with
  | [] => ""
  | [p] => p
  | p :: rest => p +:+ sep +:+ join sep rest
  end.

(** [xs[xs.length - 1]]. *)
Definition at_last {A} (xs : list A) : option A := last xs.

End JS.

(** * Gmail system labels *)

(** Modelled from the spec: the constant table [GmailLabel] of
    [utils/gmail/label] is imported by the controller; the spec fixes
    [INBOX] through the archive search string [-label:INBOX], and the
    other entries are Gmail's system label identifiers of the same
    names. *)
Module GmailLabel.
Definition INBOX : string := "INBOX".
Definition SENT : string := "SENT".
Definition DRAFT : string := "DRAFT".
Definition TRASH : string := "TRASH".
Definition SPAM : string := "SPAM".
Definition STARRED : string := "STARRED".
Definition IMPORTANT : string := "IMPORTANT".
Definition UNREAD : string := "UNREAD".
End GmailLabel.

(** * Query translation *)

(** [ThreadsQuery], the parsed query of the Gmail-style controller. *)
Record ThreadsQuery := {
  fromEmail : option string;
  limit : option Z;
  type : option string;
  q : option string;
  nextPageToken : option string;
  labelId : option string;
}.

(** The type values that [getLabelIds] has a [case] for. *)
Definition recognizedTypes : list string :=
  ["inbox"; "sent"; "draft"; "trash"; "spam"; "starred"; "important";
   "unread"; "archive"; "all"].

Definition recognized (t : string) : bool :=
  existsb (String.eqb t) recognizedTypes.

(** [getLabelIds(type)]: the [switch] compares with [===], so the cases
    are exact, case-sensitive matches; [None] is [undefined]. *)
Definition getLabelIds (type : option string) : option (list string) :=
  match type with
  | Some t =>
      if String.eqb t "inbox" then Some [GmailLabel.INBOX]
      else if String.eqb t "sent" then Some [GmailLabel.SENT]
      else if String.eqb t "draft" then Some [GmailLabel.DRAFT]
      else if String.eqb t "trash" then Some [GmailLabel.TRASH]
      else if String.eqb t "spam" then Some [GmailLabel.SPAM]
      else if String.eqb t "starred" then Some [GmailLabel.STARRED]
      else if String.eqb t "important" then Some [GmailLabel.IMPORTANT]
      else if String.eqb t "unread" then Some [GmailLabel.UNREAD]
      else if String.eqb t "archive" then None
      else if String.eqb t "all" then None
      else if negb (JS.truthy_str t) || String.eqb t "undefined"
                || String.eqb t "null"
      then Some [GmailLabel.INBOX]
      else Some [t]
  | None => Some [GmailLabel.INBOX]
  end.

(** The inner [getQuery()] of [getThreads]. *)
Definition getQuery (query : ThreadsQuery) : option string :=
  if JS.truthy (q query) then q query
  else if JS.truthy (fromEmail query)
  then Some ("from:" +:+ JS.or_empty (fromEmail query))
  else if bool_decide (type query = Some "archive")
  then Some ("-label:" +:+ GmailLabel.INBOX)
  else None.

(** The argument object of [getThreadsWithNextPageToken]. *)
Record ListParams := {
  lp_q : option string;
  lp_labelIds : option (list string);
  lp_maxResults : Z;
  lp_pageToken : option string;
}.

Definition listParams (query : ThreadsQuery) : ListParams :=
  {| lp_q := getQuery query;
     lp_labelIds :=
       if JS.truthy (labelId query)
       then Some [JS.or_empty (labelId query)]
       else getLabelIds (type query);
     lp_maxResults := JS.num_or (limit query) 50;
     lp_pageToken := JS.or_absent (nextPageToken query) |}.

(** * Failures, provider calls and the effect monad *)

Inductive error :=
  | SafeError (message : string)   (* [throw new SafeError(message)] *)
  | Rejected (reason : string).    (* a rejected promise of a collaborator *)

Inductive result (A : Type) :=
  | Ok (a : A)
  | Err (e : error).
Arguments Ok {A} a.
Arguments Err {A} e.

(** A request of the Graph client, built by chaining
    [api(path).top(n).header(k, v).filter(f)]. *)
Record GraphRequest := {
  gr_path : string;
  gr_top : option Z;
  gr_headers : list (string * string);
  gr_filter : option string;
}.

(** The calls that reach a mail provider. *)
Inductive Call :=
  | ListThreads (params : ListParams)
  | BatchThreads (threadIds : list string) (accessToken : string)
  | GraphGet (request : GraphRequest).

(** An asynchronous computation: the provider calls it started, in the
    order in which they were started, and its outcome. *)
Definition M (A : Type) : Type := (list Call * result A)%type.

Definition ret {A} (a : A) : M A := ([], Ok a).

Definition throw {A} (e : error) : M A := ([], Err e).

Definition bind {A B} (m : M A) (k : A -> M B) : M B :=
  match m with
  | (calls, Ok a) => let '(calls', r) := k a in (calls ++ calls', r)
  | (calls, Err e) => (calls, Err e)
  end.

(** [await] of a provider call: the call is recorded, its answer is the
    provider's. *)
Definition call {A} (c : Call) (answer : result A) : M A := ([c], answer).

Notation "x <- m ;; k" := (bind m (fun x => k))
  (at level 100, m at next level, right associativity).

(** [Promise.all(tasks)]: every task has been started when the array is
    built, so every task's calls are made; the outcome is the array of
    results, or a rejection when some task rejects.  When several tasks
    reject, JavaScript reports the rejection that settles first in
    time; the model has no time and reports the first rejecting task in
    array order, so nothing below says which of several errors wins. *)
Fixpoint Promise_all {A} (tasks : list (M A)) : M (list A) :=
  match tasks with
  | [] => ret []
  | (calls, r) :: rest =>
      let '(calls', rs) := Promise_all rest in
      (calls ++ calls',
       match r, rs with
       | Ok a, Ok l => Ok (a :: l)
       | Err e, _ => Err e
       | Ok _, Err e => Err e
       end)
  end.

Definition calls_of {A} (m : M A) : list Call := fst m.
Definition outcome {A} (m : M A) : result A := snd m.

(** * Local stores

    The controllers only read the rule-execution table and the category
    store.  Both are modelled by their contents: a read returns what the
    store holds and does not reject. *)

(** Modelled from the spec: the Prisma enum [ExecutedRuleStatus] is
    imported from the generated client; the spec names PENDING, SKIPPED
    and APPLIED among its values. *)
Inductive ExecutedRuleStatus :=
  | APPLIED | APPLYING | REJECTED | PENDING | SKIPPED | ERROR.

Global Instance ExecutedRuleStatus_eq_dec : EqDecision ExecutedRuleStatus.
Proof. solve_decision. Defined.

(** A row of the [executedRule] table, and its [select]ed projection. *)
Record ExecutedRule := {
  er_id : string;
  er_emailAccountId : string;
  er_messageId : string;
  er_threadId : string;
  er_rule : option string;
  er_actionItems : list string;
  er_status : ExecutedRuleStatus;
  er_reason : option string;
}.

Record Plan := {
  plan_id : string;
  plan_messageId : string;
  plan_threadId : string;
  plan_rule : option string;
  plan_actionItems : list string;
  plan_status : ExecutedRuleStatus;
  plan_reason : option string;
}.

Definition select (r : ExecutedRule) : Plan :=
  {| plan_id := er_id r; plan_messageId := er_messageId r;
     plan_threadId := er_threadId r; plan_rule := er_rule r;
     plan_actionItems := er_actionItems r; plan_status := er_status r;
     plan_reason := er_reason r |}.

Definition Category := string.

Record Stores := {
  executedRule : list ExecutedRule;
  categories : gmap (string * string) Category;
}.

(** Modelled from the spec: [prisma.executedRule.findMany] with the
    [where] clause of the controllers (account, thread id among
    [threadIds], status among [statuses]) and their [select]; rows come
    back in the store's order. *)
Definition findMany (s : Stores) (emailAccountId : string)
    (threadIds : list string) (statuses : list ExecutedRuleStatus) : list Plan :=
  select <$>
    filter (fun r => er_emailAccountId r = emailAccountId
                     /\ er_threadId r ∈ threadIds
                     /\ er_status r ∈ statuses)
           (executedRule s).

(** Modelled from the spec: [getCategory({ emailAccountId, threadId })]
    of [utils/redis/category], a tag keyed by account and thread. *)
Definition getCategory (s : Stores) (emailAccountId threadId : string)
    : option Category :=
  categories s !! (emailAccountId, threadId).

(** [plans.find((p) => p.threadId === id)]. *)
Definition findPlan (plans : list Plan) (id : string) : option Plan :=
  List.find (fun p => String.eqb (plan_threadId p) id) plans.

(** A thread of a response page, over the provider's message type. *)
Record Thread (Msg : Type) := {
  th_id : string;
  th_messages : list Msg;
  th_snippet : string;
  th_plan : option Plan;
  th_category : option Category;
}.
Arguments th_id {Msg} _.
Arguments th_messages {Msg} _.
Arguments th_snippet {Msg} _.
Arguments th_plan {Msg} _.
Arguments th_category {Msg} _.

Record ThreadsPage (Msg : Type) := {
  threads : list (Thread Msg);
  page_nextPageToken : option string;
}.
Arguments threads {Msg} _.
Arguments page_nextPageToken {Msg} _.

Definition thread_ids {Msg} (p : ThreadsPage Msg) : list string :=
  th_id <$> threads p.

(** * The Gmail-style controller *)

(** [gmail_v1.Schema$Message] and [Schema$Thread]; every field of the
    schema is optional. *)
Record GmailMessage := {
  gm_id : option string;
  gm_snippet : option string;
  gm_raw : string;
}.

Record GmailThread := {
  gt_id : option string;
  gt_snippet : option string;
  gt_messages : list GmailMessage;
}.

Record GmailThreadList := {
  gl_threads : option (list GmailThread);
  gl_nextPageToken : option string;
}.

Record Headers := {
  h_from : string;
  h_subject : string;
  h_date : string;
}.

Record ParsedMessage := {
  pm_id : string;
  pm_threadId : string;
  pm_headers : Headers;
  pm_snippet : string;
}.

(** What the controller imports from [utils/gmail/thread], [utils/mail]
    and [utils/gmail/decode]: the two provider operations, which can
    reject, and the pure helpers [parseMessages] and [decodeSnippet]. *)
Record GmailWorld := {
  getThreadsWithNextPageToken : ListParams -> result GmailThreadList;
  getThreadsBatch : list string -> string -> result (list GmailThread);
  parseMessages : GmailThread -> list ParsedMessage;
  decodeSnippet : option string -> string;
}.

(** The [where.status.in] list of both controllers. *)
Definition shownStatuses : list ExecutedRuleStatus := [PENDING; SKIPPED].

(** The body of the [threads.map(async (thread) => ...)] callback: it
    returns nothing for an entry without an id, which
    [filter(isDefined)] removes afterwards; the only thing it awaits is
    the category lookup. *)
Definition gmailThreadEntry (w : GmailWorld) (s : Stores)
    (emailAccountId : string) (plans : list Plan) (thread : GmailThread)
    : option (Thread ParsedMessage) :=
  if negb (JS.truthy (gt_id thread)) then None
  else
    let id := JS.or_empty (gt_id thread) in
    let messages := parseMessages w thread in
    let plan := findPlan plans id in
    Some {| th_id := id;
            th_messages := messages;
            th_snippet := decodeSnippet w (gt_snippet thread);
            th_plan := plan;
            th_category := getCategory s emailAccountId id |}.

(** [gmailThreads?.map((t) => t.id).filter(isDefined) || []]. *)
Definition listedIds (page : GmailThreadList) : list string :=
  JS.or_nil ((fun ts : list GmailThread => omap gt_id ts) <$> gl_threads page).

Definition getThreads (w : GmailWorld) (s : Stores) (query : ThreadsQuery)
    (accessToken emailAccountId : string) : M (ThreadsPage ParsedMessage) :=
  if negb (JS.truthy_str accessToken)
  then throw (SafeError "Missing access token")
  else
    page <- call (ListThreads (listParams query))
                 (getThreadsWithNextPageToken w (listParams query)) ;;
    let threadIds := listedIds page in
    (* Promise.all([getThreadsBatch(...), prisma.executedRule.findMany(...)]) *)
    batch <- call (BatchThreads threadIds accessToken)
                  (getThreadsBatch w threadIds accessToken) ;;
    let plans := findMany s emailAccountId threadIds shownStatuses in
    threadsWithMessages <-
      Promise_all ((fun thread : GmailThread =>
                      ret (gmailThreadEntry w s emailAccountId plans thread))
                     <$> batch) ;;
    ret {| threads := omap (fun t => t) threadsWithMessages;
           page_nextPageToken := gl_nextPageToken page |}.

(** * The Graph-style controller *)

(** The Graph client answers with untyped JSON; the controller reads
    [value] and ["@odata.nextLink"] of a response, and [id] and
    [bodyPreview] of an item. *)
Record GraphItem := {
  gi_id : string;
  gi_bodyPreview : option string;
}.

Record GraphResponse := {
  value : option (list GraphItem);
  odata_nextLink : option string;
}.

Definition GraphClient := GraphRequest -> result GraphResponse.

Definition api (path : string) : GraphRequest :=
  {| gr_path := path; gr_top := None; gr_headers := []; gr_filter := None |}.

Definition top (n : Z) (r : GraphRequest) : GraphRequest :=
  {| gr_path := gr_path r; gr_top := Some n;
     gr_headers := gr_headers r; gr_filter := gr_filter r |}.

Definition header (k v : string) (r : GraphRequest) : GraphRequest :=
  {| gr_path := gr_path r; gr_top := gr_top r;
     gr_headers := gr_headers r ++ [(k, v)]; gr_filter := gr_filter r |}.

Definition filterBy (f : string) (r : GraphRequest) : GraphRequest :=
  {| gr_path := gr_path r; gr_top := gr_top r;
     gr_headers := gr_headers r; gr_filter := Some f |}.

(** [request.get()]. *)
Definition get (graphClient : GraphClient) (r : GraphRequest) : M GraphResponse :=
  call (GraphGet r) (graphClient r).

Module Outlook.

(** The inline type of the [query] argument of [getOutlookThreads]. *)
Record Query := {
  q : option string;
  fromEmail : option string;
  type : option string;
  limit : option Z;
  nextPageToken : option string;
  folderId : option string;
}.

Definition subjectFilter (text : string) : string :=
  "contains(subject,'" +:+ text +:+ "')".

Definition fromFilter (address : string) : string :=
  "from/emailAddress/address eq '" +:+ address +:+ "'".

(** The inner [getFilter()] of [getOutlookThreads]. *)
Definition getFilter (query : Query) : option string :=
  let filters : list string := [] in
  let filters :=
    if JS.truthy (q query)
    then filters ++ [subjectFilter (JS.or_empty (q query))]
    else filters in
  let filters :=
    if JS.truthy (fromEmail query)
    then filters ++ [fromFilter (JS.or_empty (fromEmail query))]
    else filters in
  if Nat.eqb (length filters) 0 then None
  else Some (JS.join " and " filters).

(** The request for the page of conversations. *)
Definition conversationsRequest (query : Query) : GraphRequest :=
  let request := top (JS.num_or (limit query) 50) (api "/me/conversations") in
  let request :=
    if JS.truthy (nextPageToken query)
    then header "skipToken" (JS.or_empty (nextPageToken query)) request
    else request in
  let filter := getFilter query in
  if JS.truthy filter then filterBy (JS.or_empty filter) request
  else request.

Definition threadsPath (id : string) : string :=
  "/me/conversations/" +:+ id +:+ "/threads".

(** The body of the [conversations.map(async (conv) => ...)] callback. *)
Definition conversationEntry (s : Stores) (graphClient : GraphClient)
    (emailAccountId : string) (plans : list Plan) (conv : GraphItem)
    : M (Thread GraphItem) :=
  let id := gi_id conv in
  messagesRes <- get graphClient (api (threadsPath id)) ;;
  let messages := JS.or_nil (value messagesRes) in
  let plan := findPlan plans id in
  ret {| th_id := id;
         th_messages := messages;
         th_snippet := JS.or_empty (JS.or_absent (head messages ≫= gi_bodyPreview));
         th_plan := plan;
         th_category := getCategory s emailAccountId id |}.

Definition getOutlookThreads (s : Stores) (query : Query)
    (graphClient : GraphClient) (accessToken emailAccountId : string)
    : M (ThreadsPage GraphItem) :=
  if negb (JS.truthy_str accessToken)
  then throw (SafeError "Missing access token")
  else
    response <- get graphClient (conversationsRequest query) ;;
    let conversations := JS.or_nil (value response) in
    let nextPageToken := JS.or_absent (odata_nextLink response) in
    let conversationIds := gi_id <$> conversations in
    let plans := findMany s emailAccountId conversationIds shownStatuses in
    threadsWithMessages <-
      Promise_all (conversationEntry s graphClient emailAccountId plans
                     <$> conversations) ;;
    ret {| threads := threadsWithMessages;
           page_nextPageToken := nextPageToken |}.

(** ** The route [GET] *)

Record SearchParams := {
  sp_limit : option string;
  sp_fromEmail : option string;
  sp_type : option string;
  sp_nextPageToken : option string;
  sp_q : option string;
  sp_folderId : option string;
}.

(** The collaborators of the route: the zod schema [threadsQuery] and
    the account lookup, which hands out the Graph client and the
    access token (absent when the account has none). *)
Record RouteWorld := {
  threadsQuery_parse : SearchParams -> result Query;
  getGraphClientAndAccessTokenForEmail :
    string -> result (GraphClient * option string);
}.

Inductive Body :=
  | ErrorBody (error : string)
  | ThreadsBody (page : ThreadsPage GraphItem).

Record Response := {
  status : Z;
  body : Body;
}.

(** [NextResponse.json(body, init)]: without [init.status] the
    response has status 200. *)
Definition NextResponse_json (b : Body) (init : option Z) : Response :=
  {| status := default 200 init; body := b |}.

Definition lift {A} (r : result A) : M A := ([], r).

(** The handler wrapped by [withEmailAccount], which supplies
    [request.auth.emailAccountId]. *)
Definition GET (rw : RouteWorld) (s : Stores) (emailAccountId : string)
    (searchParams : SearchParams) : M Response :=
  query <- lift (threadsQuery_parse rw searchParams) ;;
  account <- lift (getGraphClientAndAccessTokenForEmail rw emailAccountId) ;;
  let '(graphClient, accessToken) := account in
  if negb (JS.truthy accessToken)
  then ret (NextResponse_json (ErrorBody "Account not found") None)
  else
    threads <- getOutlookThreads s query graphClient
                 (JS.or_empty accessToken) emailAccountId ;;
    ret (NextResponse_json (ThreadsBody threads) None).

Definition is2xx (st : Z) : bool := (200 <=? st) && (st <? 300).

End Outlook.

(** * The reply tracker's response mapping *)

Record ParsedThread := {
  pt_id : string;
  pt_messages : list ParsedMessage;
}.

Record ReplyTrackerEmail := {
  rt_threadId : string;
  rt_subject : option string;
  rt_from : option string;
  rt_date : option string;
  rt_snippet : option string;
}.

(** [threads.threads.map((thread) => ({ ... }))] of the reply tracker. *)
Definition replyTrackerEmails (threads : list ParsedThread)
    : list ReplyTrackerEmail :=
  (fun thread =>
     let lastMessage := JS.at_last (pt_messages thread) in
     {| rt_threadId := pt_id thread;
        rt_subject := (fun m => h_subject (pm_headers m)) <$> lastMessage;
        rt_from := (fun m => h_from (pm_headers m)) <$> lastMessage;
        rt_date := (fun m => h_date (pm_headers m)) <$> lastMessage;
        rt_snippet := pm_snippet <$> lastMessage |}) <$> threads.

(** * A sample mailbox

    Two threads [A] and [B] on either provider; the message fetch of [B]
    fails.  The store holds a pending rule execution for [A]. *)

Module Sample.

Definition inboxQuery : ThreadsQuery :=
  {| fromEmail := None; limit := Some 2; type := Some "inbox"; q := None;
     nextPageToken := None; labelId := None |}.

Definition pendingForA : ExecutedRule :=
  {| er_id := "r1"; er_emailAccountId := "acct"; er_messageId := "m1";
     er_threadId := "A"; er_rule := Some "archive newsletters";
     er_actionItems := ["ARCHIVE"]; er_status := PENDING;
     er_reason := None |}.

Definition stores : Stores :=
  {| executedRule :=
       [ pendingForA;
         {| er_id := "r2"; er_emailAccountId := "acct"; er_messageId := "m9";
            er_threadId := "Z"; er_rule := None; er_actionItems := [];
            er_status := SKIPPED; er_reason := Some "no match" |} ];
     categories := {[ ("acct", "A") := "newsletter" ]} |}.

Definition listed (id : string) : GmailThread :=
  {| gt_id := Some id; gt_snippet := None; gt_messages := [] |}.

Definition loaded (id : string) : GmailThread :=
  {| gt_id := Some id; gt_snippet := Some ("about " +:+ id);
     gt_messages :=
       [ {| gm_id := Some (id +:+ "-1"); gm_snippet := Some "first";
            gm_raw := "" |};
         {| gm_id := Some (id +:+ "-2"); gm_snippet := Some "last";
            gm_raw := "" |} ] |}.

(** The batch entry of a thread whose fetch failed carries no id. *)
Definition failed : GmailThread :=
  {| gt_id := None; gt_snippet := None; gt_messages := [] |}.

Definition parse (thread : GmailThread) : list ParsedMessage :=
  (fun m =>
     {| pm_id := JS.or_empty (gm_id m);
        pm_threadId := JS.or_empty (gt_id thread);
        pm_headers := {| h_from := "a@b.c"; h_subject := "hello";
                         h_date := "2024-01-01" |};
        pm_snippet := JS.or_empty (gm_snippet m) |}) <$> gt_messages thread.

Definition gmail : GmailWorld :=
  {| getThreadsWithNextPageToken := fun _ =>
       Ok {| gl_threads := Some [listed "A"; listed "B"];
             gl_nextPageToken := Some "cursor-2" |};
     getThreadsBatch := fun ids _ =>
       Ok ((fun id => if String.eqb id "B" then failed else loaded id) <$> ids);
     parseMessages := parse;
     decodeSnippet := JS.or_empty |}.

(** The page that [getThreads] is to return for [inboxQuery]. *)
Definition expectedPage : ThreadsPage ParsedMessage :=
  {| threads :=
       [ {| th_id := "A";
            th_messages := parse (loaded "A");
            th_snippet := "about A";
            th_plan := Some (select pendingForA);
            th_category := Some "newsletter" |} ];
     page_nextPageToken := Some "cursor-2" |}.

Definition conversation (id : string) : GraphItem :=
  {| gi_id := id; gi_bodyPreview := None |}.

Definition message (id preview : string) : GraphItem :=
  {| gi_id := id; gi_bodyPreview := Some preview |}.

Definition conversationsPage : GraphResponse :=
  {| value := Some [conversation "A"; conversation "B"];
     odata_nextLink := Some "https://graph.example/next" |}.

Definition messagesOf (id : string) : GraphResponse :=
  {| value := Some [message (id +:+ "-1") "first preview";
                    message (id +:+ "-2") "last preview"];
     odata_nextLink := None |}.

(** A Graph client on which every fetch succeeds. *)
Definition graph : GraphClient := fun request =>
  if String.eqb (gr_path request) "/me/conversations" then Ok conversationsPage
  else if String.eqb (gr_path request) (Outlook.threadsPath "A")
  then Ok (messagesOf "A")
  else Ok (messagesOf "B").

(** A Graph client on which the message fetch of [B] is rejected. *)
Definition graphFailingB : GraphClient := fun request =>
  if String.eqb (gr_path request) (Outlook.threadsPath "B")
  then Err (Rejected "503 Service Unavailable")
  else graph request.

Definition outlookQuery : Outlook.Query :=
  {| Outlook.q := None; Outlook.fromEmail := None;
     Outlook.type := Some "inbox"; Outlook.limit := Some 2;
     Outlook.nextPageToken := None; Outlook.folderId := None |}.

(** The same query under another type and folder. *)
Definition outlookQuery' : Outlook.Query :=
  {| Outlook.q := None; Outlook.fromEmail := None;
     Outlook.type := Some "archive"; Outlook.limit := Some 2;
     Outlook.nextPageToken := None; Outlook.folderId := Some "folder-9" |}.

(** Queries with both a free-text query and a sender. *)
Definition bothQuery : ThreadsQuery :=
  {| fromEmail := Some "x@y.com"; limit := None; type := None;
     q := Some "invoice"; nextPageToken := None; labelId := None |}.

Definition outlookBothQuery : Outlook.Query :=
  {| Outlook.q := Some "invoice"; Outlook.fromEmail := Some "x@y.com";
     Outlook.type := None; Outlook.limit := None;
     Outlook.nextPageToken := None; Outlook.folderId := None |}.

(** A query whose type is none of the recognized ones. *)
Definition customTypeQuery : ThreadsQuery :=
  {| fromEmail := None; limit := None; type := Some "Label_7"; q := None;
     nextPageToken := None; labelId := None |}.

Definition archiveQuery : ThreadsQuery :=
  {| fromEmail := None; limit := None; type := Some "archive"; q := None;
     nextPageToken := None; labelId := None |}.

(** Queries that continue from a cursor. *)
Definition nextQuery : ThreadsQuery :=
  {| fromEmail := None; limit := Some 2; type := Some "inbox"; q := None;
     nextPageToken := Some "cursor-1"; labelId := None |}.

Definition outlookNextQuery : Outlook.Query :=
  {| Outlook.q := None; Outlook.fromEmail := None;
     Outlook.type := Some "inbox"; Outlook.limit := Some 2;
     Outlook.nextPageToken := Some "cursor-1"; Outlook.folderId := None |}.

Definition searchParams : Outlook.SearchParams :=
  {| Outlook.sp_limit := Some "2"; Outlook.sp_fromEmail := None;
     Outlook.sp_type := Some "inbox"; Outlook.sp_nextPageToken := None;
     Outlook.sp_q := None; Outlook.sp_folderId := None |}.

(** An account for which the lookup yields no access token. *)
Definition routeWithoutToken : Outlook.RouteWorld :=
  {| Outlook.threadsQuery_parse := fun _ => Ok outlookQuery;
     Outlook.getGraphClientAndAccessTokenForEmail := fun _ => Ok (graph, None) |}.

End Sample.

(** * Contracts of the batch loader

    [getThreadsBatch] answers with one entry per requested thread; what
    the controller can rely on is stated here as properties of a
    [GmailWorld]. *)

(** Every identified entry of an answer was asked for. *)
Definition batchAnswersRequested (w : GmailWorld) : Prop :=
  forall ids accessToken entries,
    getThreadsBatch w ids accessToken = Ok entries ->
    forall id, id ∈ omap gt_id entries -> id ∈ ids.

(** The identified entries of an answer come in the order of the request. *)
Definition batchKeepsOrder (w : GmailWorld) : Prop :=
  forall ids accessToken entries,
    getThreadsBatch w ids accessToken = Ok entries ->
    omap gt_id entries `sublist_of` ids.

(** The identifier that the controller retains for a batch entry. *)
Definition retainedId (thread : GmailThread) : option string :=
  JS.or_absent (gt_id thread).

(** The type values for which [getLabelIds] falls back to the inbox. *)
Definition defaultsToInbox (type : option string) : bool :=
  match type with
  | None => true
  | Some t => String.eqb t "" || String.eqb t "undefined" || String.eqb t "null"
  end.

Definition unrecognized (type : option string) : bool :=
  match type with
  | None => true
  | Some t => negb (recognized t)
  end.

(** * The reply tracker's route *)

Module ReplyTracker.

(** The values of the Prisma enum [ThreadTrackerType] that the route
    names. *)
Inductive ThreadTrackerType := NEEDS_REPLY | AWAITING.

(** What can be thrown inside the [try] block of the handler: the
    [Error("Invalid type")] of [getType], or the rejection of a
    collaborator. *)
Inductive failure :=
  | InvalidType
  | Upstream (e : error).

(** The [data] of a successful [safeParse]; [type] is kept as the
    string that reaches [getType] at run time. *)
Record QueryData := {
  qd_type : string;
  qd_page : Z;
  qd_timeRange : string;
}.

Record Auth := {
  auth_accessToken : string;
  auth_userId : string;
}.

Record TrackerQuery := {
  tq_userId : string;
  tq_type : ThreadTrackerType;
  tq_page : Z;
  tq_timeRange : string;
}.

Record Tracker := {
  tracker_threadId : string;
}.

Record TrackerPage := {
  trackers : list Tracker;
  count : Z;
}.

Record Request := {
  rq_apiKey : option string;
  rq_searchParams : list (string * string);
}.

(** The collaborators of the route: the API-key check, the zod schema
    [replyTrackerQuerySchema] ([None] when [success] is false), the
    tracker store and the batch loader. *)
Record World := {
  validateApiKeyAndGetGmailClient : Request -> result Auth;
  safeParse : list (string * string) -> option QueryData;
  getPaginatedThreadTrackers : TrackerQuery -> result TrackerPage;
  getThreadsBatchAndParse : list string -> string -> bool -> result (list ParsedThread);
}.

(** What the handler does besides answering: its calls of the tracker
    store and of the batch loader, and its log lines. *)
Inductive Event :=
  | TrackerLookup (query : TrackerQuery)
  | BatchAndParse (threadIds : list string) (accessToken : string)
      (flag : bool)
  | LogInfo (message userId : string) (count : nat)
  | LogError (message userId : string) (error : failure).

Inductive Body :=
  | ErrorBody (error : string)
  | EmailsBody (emails : list ReplyTrackerEmail) (count : Z).

Record Response := {
  status : Z;
  body : Body;
}.

(** [NextResponse.json(body, { status })]; status 200 without [init]. *)
Definition NextResponse_json (b : Body) (init : option Z) : Response :=
  {| status := default 200 init; body := b |}.

(** The inner [getType(type)]. *)
Definition getType (type : string) : failure + ThreadTrackerType :=
  if String.eqb type "needs-reply" then inr NEEDS_REPLY
  else if String.eqb type "needs-follow-up" then inr AWAITING
  else inl InvalidType.

(** An [await]ed collaborator inside the [try] block. *)
Definition awaited {A} (r : result A) : failure + A :=
  match r with
  | Ok a => inr a
  | Err e => inl (Upstream e)
  end.

(** The [try] block: the events it produced, and the response it
    returned or what it threw. *)
Definition tryBlock (w : World) (auth : Auth) (data : QueryData)
    : list Event * (failure + Response) :=
  match getType (qd_type data) with
  | inl thrown => ([], inl thrown)
  | inr type =>
      let lookup :=
        {| tq_userId := auth_userId auth; tq_type := type;
           tq_page := qd_page data; tq_timeRange := qd_timeRange data |} in
      match awaited (getPaginatedThreadTrackers w lookup) with
      | inl thrown => ([TrackerLookup lookup], inl thrown)
      | inr page =>
          let threadIds := tracker_threadId <$> trackers page in
          let batch := BatchAndParse threadIds (auth_accessToken auth) false in
          match awaited (getThreadsBatchAndParse w threadIds
                           (auth_accessToken auth) false) with
          | inl thrown => ([TrackerLookup lookup; batch], inl thrown)
          | inr threads =>
              let emails := replyTrackerEmails threads in
              ([TrackerLookup lookup; batch;
                LogInfo "Retrieved emails needing reply" (auth_userId auth)
                  (length emails)],
               inr (NextResponse_json (EmailsBody emails (count page)) None))
          end
      end
  end.

(** The handler wrapped by [withError]. *)
Definition GET (w : World) (request : Request)
    : list Event * result Response :=
  match validateApiKeyAndGetGmailClient w request with
  | Err e => ([], Err e)
  | Ok auth =>
      match safeParse w (rq_searchParams request) with
      | None =>
          ([], Ok (NextResponse_json (ErrorBody "Invalid query parameters")
                     (Some 400)))
      | Some data =>
          match tryBlock w auth data with
          | (events, inr response) => (events, Ok response)
          | (events, inl thrown) =>
              (events ++ [LogError "Error retrieving emails needing reply"
                            (auth_userId auth) thrown],
               Ok (NextResponse_json (ErrorBody "Failed to retrieve emails")
                     (Some 500)))
          end
      end
  end.

(** The store and loader calls among the events. *)
Definition isCall (e : Event) : bool :=
  match e with
  | TrackerLookup _ | BatchAndParse _ _ _ => true
  | LogInfo _ _ _ | LogError _ _ _ => false
  end.

End ReplyTracker.

(** * The rule picker of the [ReportMistake] dialog *)

Module ReportMistake.

(** The fields of a [Rule] that the dialog reads. *)
Record Rule := {
  rule_id : string;
  rule_name : string;
  rule_instructions : string;
}.

(** [TestResult], of which the dialog reads [rule]. *)
Record TestResult := {
  tr_rule : option Rule;
}.

Definition NONE_RULE_ID : string := "__NONE__".

(** What a button of the picker shows: [rule.id] and [rule.name]. *)
Record Choice := {
  choice_id : string;
  choice_name : string;
}.

Definition choiceOf (rule : Rule) : Choice :=
  {| choice_id := rule_id rule; choice_name := rule_name rule |}.

(** [result?.rule?.id || NONE_RULE_ID]. *)
Definition matchedId (result : option TestResult) : string :=
  let id := rule_id <$> (result ≫= tr_rule) in
  if JS.truthy id then JS.or_empty id else NONE_RULE_ID.

(** [[{ id: NONE_RULE_ID, name: "None" }, ...(data || [])].filter(...)],
    the rules offered as the expected one. *)
Definition offeredRules (data : option (list Rule))
    (result : option TestResult) : list Choice :=
  filter (fun rule => choice_id rule <> matchedId result)
    ({| choice_id := NONE_RULE_ID; choice_name := "None" |}
       :: (choiceOf <$> JS.or_nil data)).

(** [data?.find((rule) => rule.id === correctRuleId)]; [correctRuleId]
    is [null] until a button is pressed. *)
Definition correctRule (data : option (list Rule))
    (correctRuleId : option string) : option Rule :=
  data ≫= fun rules =>
    List.find (fun rule =>
                 bool_decide (Some (rule_id rule) = correctRuleId)) rules.

End ReportMistake.

(** * More sample data *)

Module Demo.

Definition request : ReplyTracker.Request :=
  {| ReplyTracker.rq_apiKey := Some "key";
     ReplyTracker.rq_searchParams := [("type", "needs-reply"); ("page", "1")] |}.

Definition auth : ReplyTracker.Auth :=
  {| ReplyTracker.auth_accessToken := "token";
     ReplyTracker.auth_userId := "user-1" |}.

Definition thread (id : string) : ParsedThread :=
  {| pt_id := id; pt_messages := Sample.parse (Sample.loaded id) |}.

(** Two trackers; the loader answers for the first one only, and the
    store counts seven trackers in all. *)
Definition tracker : ReplyTracker.World :=
  {| ReplyTracker.validateApiKeyAndGetGmailClient := fun _ => Ok auth;
     ReplyTracker.safeParse := fun _ =>
       Some {| ReplyTracker.qd_type := "needs-reply";
               ReplyTracker.qd_page := 1;
               ReplyTracker.qd_timeRange := "all" |};
     ReplyTracker.getPaginatedThreadTrackers := fun _ =>
       Ok {| ReplyTracker.trackers :=
               [{| ReplyTracker.tracker_threadId := "A" |};
                {| ReplyTracker.tracker_threadId := "B" |}];
             ReplyTracker.count := 7 |};
     ReplyTracker.getThreadsBatchAndParse := fun ids _ _ =>
       Ok (thread <$> filter (fun id => id <> "B") ids) |}.

(** The same with a schema that rejects the query. *)
Definition trackerBadQuery : ReplyTracker.World :=
  {| ReplyTracker.validateApiKeyAndGetGmailClient := fun _ => Ok auth;
     ReplyTracker.safeParse := fun _ => None;
     ReplyTracker.getPaginatedThreadTrackers :=
       ReplyTracker.getPaginatedThreadTrackers tracker;
     ReplyTracker.getThreadsBatchAndParse :=
       ReplyTracker.getThreadsBatchAndParse tracker |}.

(** The same with a tracker store that is down. *)
Definition trackerStoreDown : ReplyTracker.World :=
  {| ReplyTracker.validateApiKeyAndGetGmailClient := fun _ => Ok auth;
     ReplyTracker.safeParse := ReplyTracker.safeParse tracker;
     ReplyTracker.getPaginatedThreadTrackers := fun _ =>
       Err (Rejected "database unreachable");
     ReplyTracker.getThreadsBatchAndParse :=
       ReplyTracker.getThreadsBatchAndParse tracker |}.

Definition rules : list ReportMistake.Rule :=
  [ {| ReportMistake.rule_id := "r-news"; ReportMistake.rule_name := "Newsletters";
       ReportMistake.rule_instructions := "archive newsletters" |};
    {| ReportMistake.rule_id := "r-bill"; ReportMistake.rule_name := "Receipts";
       ReportMistake.rule_instructions := "label receipts" |} ].

Definition matchedNews : option ReportMistake.TestResult :=
  Some {| ReportMistake.tr_rule :=
            Some {| ReportMistake.rule_id := "r-news";
                    ReportMistake.rule_name := "Newsletters";
                    ReportMistake.rule_instructions := "archive newsletters" |} |}.

(** A Gmail world whose list call is rejected, and one whose batch call
    is rejected. *)
Definition gmailListDown : GmailWorld :=
  {| getThreadsWithNextPageToken := fun _ => Err (Rejected "429");
     getThreadsBatch := getThreadsBatch Sample.gmail;
     parseMessages := Sample.parse;
     decodeSnippet := JS.or_empty |}.

Definition gmailBatchDown : GmailWorld :=
  {| getThreadsWithNextPageToken := getThreadsWithNextPageToken Sample.gmail;
     getThreadsBatch := fun _ _ => Err (Rejected "batch failed");
     parseMessages := Sample.parse;
     decodeSnippet := JS.or_empty |}.

(** A Graph client whose page request is rejected, and one whose page is
    empty. *)
Definition graphDown : GraphClient := fun _ => Err (Rejected "401").

Definition graphEmpty : GraphClient := fun _ =>
  Ok {| value := None; odata_nextLink := None |}.

(** Another content of the stores: no rule execution, another category. *)
Definition otherStores : Stores :=
  {| executedRule := [];
     categories := {[ ("acct", "B") := "receipt" ]} |}.

(** An account with an access token. *)
Definition routeWithToken : Outlook.RouteWorld :=
  {| Outlook.threadsQuery_parse := fun _ => Ok Sample.outlookQuery;
     Outlook.getGraphClientAndAccessTokenForEmail := fun _ =>
       Ok (Sample.graph, Some "token") |}.

Definition labelQuery : ThreadsQuery :=
  {| fromEmail := None; limit := None; type := Some "archive"; q := None;
     nextPageToken := None; labelId := Some "Label_42" |}.

Definition senderArchiveQuery : ThreadsQuery :=
  {| fromEmail := Some "x@y.com"; limit := Some 10; type := Some "archive";
     q := None; nextPageToken := None; labelId := None |}.

End Demo.

(** The rows that the controllers show for a thread of an account:
    the [where] clause of [findMany] met at the thread's id. *)
Definition shownFor (emailAccountId id : string) (row : ExecutedRule) : bool :=
  bool_decide (er_emailAccountId row = emailAccountId
               /\ er_threadId row = id
               /\ er_status row ∈ shownStatuses).

(** Two threads with the same identifier, messages and snippet: they
    differ at most in what the stores contribute. *)
Definition sameContent {Msg} (t t' : Thread Msg) : Prop :=
  th_id t = th_id t' /\ th_messages t = th_messages t'
  /\ th_snippet t = th_snippet t'.

(** Two runs with the same failure or with pages of the same content. *)
Definition sameOutcome {Msg} (r r' : result (ThreadsPage Msg)) : Prop :=
  match r, r' with
  | Ok out, Ok out' =>
      Forall2 sameContent (threads out) (threads out')
      /\ page_nextPageToken out = page_nextPageToken out'
  | Err e, Err e' => e = e'
  | _, _ => False
  end.

(** * Basic facts *)

Lemma truthy_Some s : s <> "" -> JS.truthy (Some s) = true.
Proof.
  intros Hs. unfold JS.truthy, JS.truthy_str.
  destruct (String.eqb_spec s ""); [contradiction | reflexivity].
Qed.

Lemma truthy_str_true s : s <> "" -> JS.truthy_str s = true.
Proof. intros Hs. apply (truthy_Some s Hs). Qed.

Lemma truthy_inv o :
  JS.truthy o = true -> exists s, o = Some s /\ s <> "".
Proof.
  destruct o as [s|]; [|discriminate]. unfold JS.truthy, JS.truthy_str.
  destruct (String.eqb_spec s ""); [discriminate|]. eauto.
Qed.

Lemma or_absent_Some s : s <> "" -> JS.or_absent (Some s) = Some s.
Proof. intros Hs. unfold JS.or_absent. by rewrite truthy_Some. Qed.

Lemma or_absent_falsy o : JS.truthy o = false -> JS.or_absent o = None.
Proof. unfold JS.or_absent. by intros ->. Qed.

Lemma or_absent_inv o s : JS.or_absent o = Some s -> o = Some s /\ s <> "".
Proof.
  unfold JS.or_absent. destruct (JS.truthy o) eqn:Ht; [|discriminate].
  intros ->. apply truthy_inv in Ht as (s' & [= ->] & Hne). done.
Qed.


Section MonadFacts.

Context {A B : Type}.

Lemma bind_call_Ok (c : Call) (a : A) (k : A -> M B) :
  bind (call c (Ok a)) k = (c :: calls_of (k a), outcome (k a)).
Proof. unfold bind, call, calls_of, outcome. by destruct (k a). Qed.

Lemma bind_call_Err (c : Call) (e : error) (k : A -> M B) :
  bind (call c (Err e)) k = ([c], Err e).
Proof. reflexivity. Qed.

Lemma bind_ret (a : A) (k : A -> M B) : bind (ret a) k = k a.
Proof. unfold bind, ret. by destruct (k a). Qed.

(** Tasks that call no provider all succeed together. *)
Lemma Promise_all_ret (f : A -> B) (l : list A) :
  Promise_all ((fun x => ret (f x)) <$> l) = ret (f <$> l).
Proof.
  induction l as [|x l IH]; [reflexivity|].
  rewrite !fmap_cons. simpl. rewrite IH. reflexivity.
Qed.

Lemma Promise_all_calls (tasks : list (M A)) :
  calls_of (Promise_all tasks) = concat (calls_of <$> tasks).
Proof.
  induction tasks as [|[calls r] tasks IH]; [reflexivity|].
  rewrite fmap_cons. simpl. destruct (Promise_all tasks) as [calls' rs].
  simpl in *. by rewrite IH.
Qed.

(** [Promise.all] fulfils exactly when every task does, with the
    results in the order of the tasks. *)
Lemma Promise_all_Ok (tasks : list (M A)) (rs : list A) :
  outcome (Promise_all tasks) = Ok rs <->
  Forall2 (fun t r => outcome t = Ok r) tasks rs.
Proof.
  revert rs. induction tasks as [|[calls r] tasks IH]; intros rs; simpl.
  - split.
    + intros [= <-]. constructor.
    + intros H. by inversion H.
  - destruct (Promise_all tasks) as [calls' rs'] eqn:Hall. simpl in *.
    split.
    + destruct r as [a|e]; [|discriminate].
      destruct rs' as [l|e]; [|discriminate].
      intros [= <-]. constructor; [done|]. by apply IH.
    + intros H. inversion H as [|t a ts l Ha Hl]; subst. simpl in Ha.
      subst r. apply IH in Hl. by rewrite Hl.
Qed.

(** [Promise.all] rejects as soon as one task does. *)
Lemma Promise_all_Err (tasks : list (M A)) (t : M A) e :
  t ∈ tasks -> outcome t = Err e ->
  exists e', outcome (Promise_all tasks) = Err e'.
Proof.
  intros Hin He. destruct (outcome (Promise_all tasks)) as [rs|e'] eqn:Hall;
    [|by eauto].
  apply Promise_all_Ok in Hall.
  apply list_elem_of_lookup in Hin as [i Hi].
  destruct (Forall2_lookup_l _ _ _ _ _ Hall Hi) as (r & _ & Hr).
  congruence.
Qed.

End MonadFacts.

(** * The controllers, step by step *)

Lemma omap_id_fmap {A B} (f : A -> option B) (l : list A) :
  omap (fun t => t) (f <$> l) = omap f l.
Proof.
  induction l as [|x l IH]; [reflexivity|].
  csimpl. by rewrite IH.
Qed.

(** [getThreads] with an access token: one list call, then one batch
    call for the listed ids, then the assembly. *)
Lemma getThreads_steps w s query accessToken emailAccountId :
  accessToken <> "" ->
  getThreads w s query accessToken emailAccountId =
    match getThreadsWithNextPageToken w (listParams query) with
    | Err e => ([ListThreads (listParams query)], Err e)
    | Ok page =>
        let threadIds := listedIds page in
        let plans := findMany s emailAccountId threadIds shownStatuses in
        ([ListThreads (listParams query); BatchThreads threadIds accessToken],
         match getThreadsBatch w threadIds accessToken with
         | Err e => Err e
         | Ok batch =>
             Ok {| threads :=
                     omap (gmailThreadEntry w s emailAccountId plans) batch;
                   page_nextPageToken := gl_nextPageToken page |}
         end)
    end.
Proof.
  intros Htok. unfold getThreads. rewrite (truthy_str_true _ Htok).
  cbn [negb].
  destruct (getThreadsWithNextPageToken w (listParams query)) as [page|e];
    [|reflexivity].
  rewrite bind_call_Ok. cbn zeta.
  destruct (getThreadsBatch w (listedIds page) accessToken) as [batch|e];
    [|reflexivity].
  rewrite bind_call_Ok, Promise_all_ret, bind_ret.
  cbn [calls_of outcome ret fst snd].
  by rewrite omap_id_fmap.
Qed.

Lemma getThreads_without_token w s query emailAccountId :
  getThreads w s query "" emailAccountId
  = ([], Err (SafeError "Missing access token")).
Proof. reflexivity. Qed.

Lemma conversationEntry_steps s graphClient emailAccountId plans conv :
  Outlook.conversationEntry s graphClient emailAccountId plans conv =
    ([GraphGet (api (Outlook.threadsPath (gi_id conv)))],
     match graphClient (api (Outlook.threadsPath (gi_id conv))) with
     | Err e => Err e
     | Ok messagesRes =>
         let messages := JS.or_nil (value messagesRes) in
         Ok {| th_id := gi_id conv;
               th_messages := messages;
               th_snippet :=
                 JS.or_empty (JS.or_absent (head messages ≫= gi_bodyPreview));
               th_plan := findPlan plans (gi_id conv);
               th_category := getCategory s emailAccountId (gi_id conv) |}
     end).
Proof.
  unfold Outlook.conversationEntry, get.
  by destruct (graphClient (api (Outlook.threadsPath (gi_id conv)))).
Qed.

(** [getOutlookThreads] with an access token: the request for the
    page, then one message fetch per conversation. *)
Lemma getOutlookThreads_steps s query graphClient accessToken emailAccountId :
  accessToken <> "" ->
  Outlook.getOutlookThreads s query graphClient accessToken emailAccountId =
    match graphClient (Outlook.conversationsRequest query) with
    | Err e => ([GraphGet (Outlook.conversationsRequest query)], Err e)
    | Ok response =>
        let conversations := JS.or_nil (value response) in
        let plans :=
          findMany s emailAccountId (gi_id <$> conversations) shownStatuses in
        let tasks :=
          Outlook.conversationEntry s graphClient emailAccountId plans
            <$> conversations in
        (GraphGet (Outlook.conversationsRequest query)
           :: calls_of (Promise_all tasks),
         match outcome (Promise_all tasks) with
         | Err e => Err e
         | Ok threadsWithMessages =>
             Ok {| threads := threadsWithMessages;
                   page_nextPageToken :=
                     JS.or_absent (odata_nextLink response) |}
         end)
    end.
Proof.
  intros Htok. unfold Outlook.getOutlookThreads, get.
  rewrite (truthy_str_true _ Htok). cbn [negb].
  destruct (graphClient (Outlook.conversationsRequest query))
    as [response|e]; [|reflexivity].
  rewrite bind_call_Ok. cbn zeta.
  destruct (Promise_all _) as [calls [ts|e]]; simpl;
    by rewrite ?app_nil_r.
Qed.

Lemma getOutlookThreads_without_token s query graphClient emailAccountId :
  Outlook.getOutlookThreads s query graphClient "" emailAccountId
  = ([], Err (SafeError "Missing access token")).
Proof. reflexivity. Qed.

Lemma gmailThreadEntry_id w s emailAccountId plans thread :
  th_id <$> gmailThreadEntry w s emailAccountId plans thread
  = retainedId thread.
Proof.
  unfold gmailThreadEntry, retainedId, JS.or_absent.
  destruct (JS.truthy (gt_id thread)) eqn:Ht; [|reflexivity].
  by apply truthy_inv in Ht as (id & -> & _).
Qed.

(** The identifiers of the assembled Gmail page are the retained
    identifiers of the batch entries, in the order of the batch. *)
Lemma gmailThreadEntry_ids w s emailAccountId plans
    (batch : list GmailThread) :
  th_id <$> omap (gmailThreadEntry w s emailAccountId plans) batch
  = omap retainedId batch.
Proof.
  rewrite list_fmap_omap. apply list_omap_ext, Forall2_same_length_lookup.
  split; [done|]. intros i t t' Ht Ht'. simplify_eq.
  apply gmailThreadEntry_id.
Qed.

Lemma retained_sublist (batch : list GmailThread) :
  omap retainedId batch `sublist_of` omap gt_id batch.
Proof.
  induction batch as [|t batch IH]; [constructor|]. csimpl.
  destruct (retainedId t) as [id|] eqn:Hr.
  - apply or_absent_inv in Hr as [-> _]. by constructor.
  - destruct (gt_id t); [by constructor | done].
Qed.


(** * The provider calls of the controllers *)

(** The provider calls of [getThreads]: exactly one list call, for the
    translated parameters, followed at most by the batch call. *)
Lemma getThreads_calls w s query accessToken emailAccountId :
  accessToken <> "" ->
  exists rest,
    calls_of (getThreads w s query accessToken emailAccountId)
    = ListThreads (listParams query) :: rest /\
    forall params, ListThreads params ∉ rest.
Proof.
  intros Htok. rewrite (getThreads_steps _ _ _ _ _ Htok).
  destruct (getThreadsWithNextPageToken w (listParams query)) as [page|e].
  - eexists. split; [reflexivity|]. intros params Hin.
    apply list_elem_of_singleton in Hin. discriminate.
  - exists []. split; [reflexivity|]. intros params Hin. by apply elem_of_nil in Hin.
Qed.

Lemma conversationsRequest_headers (query : Outlook.Query) :
  gr_headers (Outlook.conversationsRequest query) =
    if JS.truthy (Outlook.nextPageToken query)
    then [("skipToken", JS.or_empty (Outlook.nextPageToken query))]
    else [].
Proof.
  unfold Outlook.conversationsRequest.
  destruct (JS.truthy (Outlook.getFilter query));
    by destruct (JS.truthy (Outlook.nextPageToken query)).
Qed.

(** The provider calls of [getOutlookThreads]: the request for the page,
    then message fetches of single conversations. *)
Lemma getOutlookThreads_calls s query graphClient accessToken emailAccountId :
  accessToken <> "" ->
  exists rest,
    calls_of (Outlook.getOutlookThreads s query graphClient accessToken
                emailAccountId)
    = GraphGet (Outlook.conversationsRequest query) :: rest /\
    forall c, c ∈ rest -> exists id, c = GraphGet (api (Outlook.threadsPath id)).
Proof.
  intros Htok. rewrite (getOutlookThreads_steps _ _ _ _ _ Htok).
  destruct (graphClient (Outlook.conversationsRequest query)) as [response|e].
  - eexists. split; [reflexivity|]. intros c. simpl.
    rewrite Promise_all_calls.
    induction (JS.or_nil (value response)) as [|conv convs IH] at 2; csimpl.
    + intros Hin. by apply elem_of_nil in Hin.
    + rewrite conversationEntry_steps. simpl.
      intros [->|Hin]%elem_of_cons; eauto.
  - exists []. split; [reflexivity|]. intros c Hin. by apply elem_of_nil in Hin.
Qed.

(** * Query translation: precedence, defaults and the archive case *)

(** C2, as stated, fails on the Graph-style filter: with both a
    free-text query and a sender, [getFilter] joins the two sub-filters
    with [and], so the filter of the request for the page does contain
    the sender sub-filter. *)
Lemma graph_filter_keeps_sender :
  JS.truthy (Outlook.q Sample.outlookBothQuery) = true /\
  JS.truthy (Outlook.fromEmail Sample.outlookBothQuery) = true /\
  head (calls_of (Outlook.getOutlookThreads Sample.stores
                    Sample.outlookBothQuery Sample.graph "token" "acct"))
    = Some (GraphGet
              {| gr_path := "/me/conversations"; gr_top := Some 50;
                 gr_headers := [];
                 gr_filter :=
                   Some "contains(subject,'invoice') and from/emailAddress/address eq 'x@y.com'" |}) /\
  ~ (lp_q (listParams Sample.bothQuery) = Some "invoice" /\
     JS.includes (Outlook.fromFilter "x@y.com")
       (JS.or_empty (gr_filter (Outlook.conversationsRequest
                                  Sample.outlookBothQuery))) = false).
Proof.
  repeat split; try reflexivity.
  intros [_ H]. vm_compute in H. discriminate.
Qed.

(** C2, amended: when both the free-text query and the sender are set,
    the search string of the one Gmail-style list call is exactly the
    free-text query, and the filter of the Graph-style request for the
    page is the conjunction of the subject sub-filter for the free-text
    query and the sender sub-filter. *)
Theorem free_text_with_sender w s (query : ThreadsQuery)
    (oquery : Outlook.Query) (graphClient : GraphClient)
    (accessToken emailAccountId text sender : string) :
  accessToken <> "" -> text <> "" -> sender <> "" ->
  q query = Some text -> fromEmail query = Some sender ->
  Outlook.q oquery = Some text -> Outlook.fromEmail oquery = Some sender ->
  (exists params rest,
     calls_of (getThreads w s query accessToken emailAccountId)
     = ListThreads params :: rest /\
     (forall params', ListThreads params' ∉ rest) /\
     lp_q params = Some text) /\
  (exists request rest,
     calls_of (Outlook.getOutlookThreads s oquery graphClient accessToken
                 emailAccountId)
     = GraphGet request :: rest /\
     (forall c, c ∈ rest -> exists id, c = GraphGet (api (Outlook.threadsPath id))) /\
     gr_filter request
     = Some (Outlook.subjectFilter text +:+ " and " +:+ Outlook.fromFilter sender)).
Proof.
  intros Htok Htext Hsender Hq Hfrom Hoq Hofrom. split.
  - destruct (getThreads_calls w s query accessToken emailAccountId Htok)
      as (rest & Hcalls & Hrest).
    exists (listParams query), rest. repeat split; try done.
    simpl. unfold getQuery. by rewrite Hq, (truthy_Some _ Htext).
  - destruct (getOutlookThreads_calls s oquery graphClient accessToken
                emailAccountId Htok) as (rest & Hcalls & Hrest).
    exists (Outlook.conversationsRequest oquery), rest.
    repeat split; try done.
    unfold Outlook.conversationsRequest, Outlook.getFilter.
    rewrite Hoq, Hofrom, (truthy_Some _ Htext), (truthy_Some _ Hsender).
    simpl. by destruct (JS.truthy (Outlook.nextPageToken oquery)).
Qed.

Lemma free_text_with_sender_witness :
  (exists params rest,
     calls_of (getThreads Sample.gmail Sample.stores Sample.bothQuery
                 "token" "acct")
     = ListThreads params :: rest /\
     lp_q params = Some "invoice") /\
  (exists request rest,
     calls_of (Outlook.getOutlookThreads Sample.stores Sample.outlookBothQuery
                 Sample.graph "token" "acct")
     = GraphGet request :: rest /\
     gr_filter request
     = Some "contains(subject,'invoice') and from/emailAddress/address eq 'x@y.com'").
Proof.
  destruct (free_text_with_sender Sample.gmail Sample.stores Sample.bothQuery
              Sample.outlookBothQuery Sample.graph "token" "acct"
              "invoice" "x@y.com") as [Hg Ho];
    try discriminate; try reflexivity.
  destruct Hg as (params & rest & Hcalls & _ & Hq).
  destruct Ho as (request & rest' & Hcalls' & _ & Hfilter).
  split.
  - exists params, rest. split; [exact Hcalls | exact Hq].
  - exists request, rest'. split; [exact Hcalls' | exact Hfilter].
Defined.

(** C3, as stated, fails: a type outside the recognized ones that is
    neither empty nor ["undefined"] nor ["null"] is used verbatim as the
    label id of the list call. *)
Lemma unrecognized_type_is_a_label :
  recognized "Label_7" = false /\
  JS.truthy (labelId Sample.customTypeQuery) = false /\
  head (calls_of (getThreads Sample.gmail Sample.stores
                    Sample.customTypeQuery "token" "acct"))
    = Some (ListThreads {| lp_q := None; lp_labelIds := Some ["Label_7"];
                           lp_maxResults := 50; lp_pageToken := None |}) /\
  lp_labelIds (listParams Sample.customTypeQuery) <> Some [GmailLabel.INBOX].
Proof. repeat split; try reflexivity. discriminate. Qed.

Lemma recognized_false t :
  recognized t = false ->
  String.eqb t "inbox" = false /\ String.eqb t "sent" = false /\
  String.eqb t "draft" = false /\ String.eqb t "trash" = false /\
  String.eqb t "spam" = false /\ String.eqb t "starred" = false /\
  String.eqb t "important" = false /\ String.eqb t "unread" = false /\
  String.eqb t "archive" = false /\ String.eqb t "all" = false.
Proof.
  unfold recognized, recognizedTypes. cbn [existsb].
  rewrite !orb_false_iff. tauto.
Qed.

(** What [getLabelIds] does outside its [case]s. *)
Lemma getLabelIds_default (type : option string) :
  unrecognized type = true ->
  getLabelIds type =
    if defaultsToInbox type then Some [GmailLabel.INBOX]
    else Some [JS.or_empty type].
Proof.
  destruct type as [t|]; [|reflexivity].
  intros Hun. simpl in Hun. apply negb_true_iff, recognized_false in Hun.
  destruct Hun as (H1 & H2 & H3 & H4 & H5 & H6 & H7 & H8 & H9 & H10).
  unfold getLabelIds, defaultsToInbox, JS.truthy_str.
  rewrite H1, H2, H3, H4, H5, H6, H7, H8, H9, H10, negb_involutive.
  reflexivity.
Qed.

(** C3, amended: with no labelId, a type outside the recognized ones
    makes the one list call carry the label-id list [INBOX] when it is
    absent, empty, ["undefined"] or ["null"], and otherwise the list
    holding the type itself. *)
Theorem unrecognized_type_labels w s (query : ThreadsQuery)
    (accessToken emailAccountId : string) :
  unrecognized (type query) = true ->
  JS.truthy (labelId query) = false ->
  accessToken <> "" ->
  exists params rest,
    calls_of (getThreads w s query accessToken emailAccountId)
    = ListThreads params :: rest /\
    (forall params', ListThreads params' ∉ rest) /\
    lp_labelIds params =
      if defaultsToInbox (type query) then Some [GmailLabel.INBOX]
      else Some [JS.or_empty (type query)].
Proof.
  intros Hun Hlabel Htok.
  destruct (getThreads_calls w s query accessToken emailAccountId Htok)
    as (rest & Hcalls & Hrest).
  exists (listParams query), rest. repeat split; try done.
  simpl. rewrite Hlabel. by apply getLabelIds_default.
Qed.

Lemma unrecognized_type_labels_witness :
  exists params rest,
    calls_of (getThreads Sample.gmail Sample.stores Sample.customTypeQuery
                "token" "acct")
    = ListThreads params :: rest /\
    lp_labelIds params = Some ["Label_7"].
Proof.
  destruct (unrecognized_type_labels Sample.gmail Sample.stores
              Sample.customTypeQuery "token" "acct")
    as (params & rest & Hcalls & _ & Hlabels);
    try reflexivity; try discriminate.
  exists params, rest. split; [exact Hcalls | exact Hlabels].
Defined.

(** C9: for a query of type ["archive"] with no labelId, no free-text
    query and no sender, the one list call of [getThreads] carries the
    search string [-label:INBOX] and no label-id filter. *)
Theorem archive_translation w s (query : ThreadsQuery)
    (accessToken emailAccountId : string) :
  type query = Some "archive" ->
  JS.truthy (labelId query) = false ->
  JS.truthy (q query) = false ->
  JS.truthy (fromEmail query) = false ->
  accessToken <> "" ->
  exists params rest,
    calls_of (getThreads w s query accessToken emailAccountId)
    = ListThreads params :: rest /\
    (forall params', ListThreads params' ∉ rest) /\
    lp_q params = Some "-label:INBOX" /\
    lp_labelIds params = None.
Proof.
  intros Htype Hlabel Hq Hfrom Htok.
  destruct (getThreads_calls w s query accessToken emailAccountId Htok)
    as (rest & Hcalls & Hrest).
  exists (listParams query), rest. repeat split; try done.
  - simpl. unfold getQuery. by rewrite Hq, Hfrom, Htype.
  - simpl. by rewrite Hlabel, Htype.
Qed.

Lemma archive_translation_witness :
  exists params rest,
    calls_of (getThreads Sample.gmail Sample.stores Sample.archiveQuery
                "token" "acct")
    = ListThreads params :: rest /\
    (forall params', ListThreads params' ∉ rest) /\
    lp_q params = Some "-label:INBOX" /\
    lp_labelIds params = None.
Proof.
  apply (archive_translation Sample.gmail Sample.stores Sample.archiveQuery
           "token" "acct"); (reflexivity || discriminate).
Defined.

(** * The Graph-style request depends on four fields only *)

(** C10: two queries that agree on [q], [fromEmail], [limit] and
    [nextPageToken] lead to the same request for the page of
    conversations and to the same run of [getOutlookThreads] (the same
    provider calls and the same outcome), whatever their [type] and
    [folderId]. *)
Theorem type_and_folder_are_ignored s (query1 query2 : Outlook.Query)
    (graphClient : GraphClient) (accessToken emailAccountId : string) :
  Outlook.q query1 = Outlook.q query2 ->
  Outlook.fromEmail query1 = Outlook.fromEmail query2 ->
  Outlook.limit query1 = Outlook.limit query2 ->
  Outlook.nextPageToken query1 = Outlook.nextPageToken query2 ->
  Outlook.conversationsRequest query1 = Outlook.conversationsRequest query2 /\
  Outlook.getOutlookThreads s query1 graphClient accessToken emailAccountId
  = Outlook.getOutlookThreads s query2 graphClient accessToken emailAccountId.
Proof.
  intros Hq Hfrom Hlimit Htoken.
  assert (Hreq : Outlook.conversationsRequest query1
                 = Outlook.conversationsRequest query2).
  { unfold Outlook.conversationsRequest, Outlook.getFilter.
    by rewrite Hq, Hfrom, Hlimit, Htoken. }
  split; [exact Hreq|].
  unfold Outlook.getOutlookThreads. by rewrite Hreq.
Qed.

Lemma type_and_folder_are_ignored_witness :
  Outlook.type Sample.outlookQuery <> Outlook.type Sample.outlookQuery' /\
  Outlook.folderId Sample.outlookQuery <> Outlook.folderId Sample.outlookQuery' /\
  Outlook.conversationsRequest Sample.outlookQuery
  = Outlook.conversationsRequest Sample.outlookQuery' /\
  Outlook.getOutlookThreads Sample.stores Sample.outlookQuery Sample.graph
    "token" "acct"
  = Outlook.getOutlookThreads Sample.stores Sample.outlookQuery' Sample.graph
      "token" "acct".
Proof.
  split; [discriminate|]. split; [discriminate|].
  apply (type_and_folder_are_ignored Sample.stores Sample.outlookQuery
           Sample.outlookQuery' Sample.graph "token" "acct"); reflexivity.
Defined.

(** * A missing access token *)

(** C8, as stated, fails on the status: for an account without access
    token the route answers through [NextResponse.json] without a status,
    that is with status 200, which is a 2xx status and not 401. *)
Lemma missing_token_answers_200 :
  Outlook.getGraphClientAndAccessTokenForEmail Sample.routeWithoutToken "acct"
    = Ok (Sample.graph, None) /\
  Outlook.GET Sample.routeWithoutToken Sample.stores "acct" Sample.searchParams
    = ([], Ok {| Outlook.status := 200;
                 Outlook.body := Outlook.ErrorBody "Account not found" |}) /\
  ~ (exists response,
       outcome (Outlook.GET Sample.routeWithoutToken Sample.stores "acct"
                  Sample.searchParams) = Ok response /\
       Outlook.is2xx (Outlook.status response) = false).
Proof.
  repeat split. intros (response & [= <-] & H2xx). discriminate.
Qed.

(** C8, amended: when the account lookup yields no access token, the
    route calls no provider and answers with the error payload
    [{ error: "Account not found" }] under the default status 200; and
    both controllers, given an empty access token, throw
    [SafeError("Missing access token")] before any provider call. *)
Theorem missing_token_policy (rw : Outlook.RouteWorld) (w : GmailWorld)
    (s : Stores) (emailAccountId : string)
    (searchParams : Outlook.SearchParams) (oquery : Outlook.Query)
    (query : ThreadsQuery) (graphClient : GraphClient)
    (accessToken : option string) :
  Outlook.threadsQuery_parse rw searchParams = Ok oquery ->
  Outlook.getGraphClientAndAccessTokenForEmail rw emailAccountId
    = Ok (graphClient, accessToken) ->
  JS.truthy accessToken = false ->
  Outlook.GET rw s emailAccountId searchParams
    = ([], Ok {| Outlook.status := 200;
                 Outlook.body := Outlook.ErrorBody "Account not found" |}) /\
  getThreads w s query "" emailAccountId
    = ([], Err (SafeError "Missing access token")) /\
  Outlook.getOutlookThreads s oquery graphClient "" emailAccountId
    = ([], Err (SafeError "Missing access token")).
Proof.
  intros Hparse Hlookup Htoken.
  split; [|split; [apply getThreads_without_token
                  |apply getOutlookThreads_without_token]].
  unfold Outlook.GET. rewrite Hparse, Hlookup. simpl. by rewrite Htoken.
Qed.

Lemma missing_token_policy_witness :
  Outlook.GET Sample.routeWithoutToken Sample.stores "acct" Sample.searchParams
    = ([], Ok {| Outlook.status := 200;
                 Outlook.body := Outlook.ErrorBody "Account not found" |}) /\
  getThreads Sample.gmail Sample.stores Sample.inboxQuery "" "acct"
    = ([], Err (SafeError "Missing access token")) /\
  Outlook.getOutlookThreads Sample.stores Sample.outlookQuery Sample.graph
    "" "acct"
    = ([], Err (SafeError "Missing access token")).
Proof.
  apply (missing_token_policy Sample.routeWithoutToken Sample.gmail
           Sample.stores "acct" Sample.searchParams Sample.outlookQuery
           Sample.inboxQuery Sample.graph None); reflexivity.
Defined.

(** * Successful runs *)

Lemma getThreads_Ok w s query accessToken emailAccountId out :
  outcome (getThreads w s query accessToken emailAccountId) = Ok out ->
  exists page batch,
    getThreadsWithNextPageToken w (listParams query) = Ok page /\
    getThreadsBatch w (listedIds page) accessToken = Ok batch /\
    out = {| threads :=
               omap (gmailThreadEntry w s emailAccountId
                       (findMany s emailAccountId (listedIds page) shownStatuses))
                    batch;
             page_nextPageToken := gl_nextPageToken page |}.
Proof.
  destruct (decide (accessToken = "")) as [->|Htok]; [discriminate|].
  rewrite (getThreads_steps _ _ _ _ _ Htok).
  destruct (getThreadsWithNextPageToken w (listParams query)) as [page|e];
    [|discriminate]. simpl.
  destruct (getThreadsBatch w (listedIds page) accessToken) as [batch|e] eqn:Hb;
    [|discriminate].
  intros [= <-]. by exists page, batch.
Qed.

Lemma getOutlookThreads_Ok s query graphClient accessToken emailAccountId out :
  outcome (Outlook.getOutlookThreads s query graphClient accessToken
             emailAccountId) = Ok out ->
  exists response,
    graphClient (Outlook.conversationsRequest query) = Ok response /\
    page_nextPageToken out = JS.or_absent (odata_nextLink response) /\
    Forall2
      (fun conv thread =>
         outcome (Outlook.conversationEntry s graphClient emailAccountId
                    (findMany s emailAccountId
                       (gi_id <$> JS.or_nil (value response)) shownStatuses)
                    conv) = Ok thread)
      (JS.or_nil (value response)) (threads out).
Proof.
  destruct (decide (accessToken = "")) as [->|Htok]; [discriminate|].
  rewrite (getOutlookThreads_steps _ _ _ _ _ Htok).
  destruct (graphClient (Outlook.conversationsRequest query)) as [response|e];
    [|discriminate]. simpl.
  destruct (outcome (Promise_all _)) as [ts|e] eqn:Hall; [|discriminate].
  intros [= <-]. exists response. repeat split. simpl.
  apply Promise_all_Ok in Hall. by apply Forall2_fmap_l in Hall.
Qed.

Lemma conversationEntry_Ok s graphClient emailAccountId plans conv thread :
  outcome (Outlook.conversationEntry s graphClient emailAccountId plans conv)
    = Ok thread ->
  th_id thread = gi_id conv /\
  (exists messagesRes,
     graphClient (api (Outlook.threadsPath (gi_id conv))) = Ok messagesRes /\
     th_messages thread = JS.or_nil (value messagesRes)) /\
  th_snippet thread
    = JS.or_empty (JS.or_absent (head (th_messages thread) ≫= gi_bodyPreview)).
Proof.
  rewrite conversationEntry_steps. simpl.
  destruct (graphClient (api (Outlook.threadsPath (gi_id conv))))
    as [messagesRes|e]; [|discriminate].
  intros [= <-]. simpl. eauto.
Qed.

Lemma getOutlookThreads_ids s query graphClient accessToken emailAccountId out :
  outcome (Outlook.getOutlookThreads s query graphClient accessToken
             emailAccountId) = Ok out ->
  exists response,
    graphClient (Outlook.conversationsRequest query) = Ok response /\
    thread_ids out = gi_id <$> JS.or_nil (value response).
Proof.
  intros (response & Hresp & _ & Hall)%getOutlookThreads_Ok.
  exists response. split; [done|]. unfold thread_ids.
  induction Hall as [|conv thread convs ts Hentry _ IH]; [reflexivity|].
  csimpl. apply conversationEntry_Ok in Hentry as (-> & _). by rewrite IH.
Qed.

Lemma batchKeepsOrder_answersRequested w :
  batchKeepsOrder w -> batchAnswersRequested w.
Proof.
  intros Horder ids accessToken entries Hbatch id Hin.
  by apply (sublist_subseteq _ _ (Horder _ _ _ Hbatch)).
Qed.

Lemma Sample_gmail_keeps_order : batchKeepsOrder Sample.gmail.
Proof.
  intros ids accessToken entries [= <-].
  induction ids as [|id ids IH]; [constructor|]. csimpl.
  destruct (String.eqb id "B"); simpl; by constructor.
Qed.

(** * Failed message fetches *)

(** The inbox page of the sample mailbox: [A] comes back with its
    pending rule execution and its category, [B] is absent, and the
    cursor is the provider's. *)
Example getThreads_sample :
  getThreads Sample.gmail Sample.stores Sample.inboxQuery "token" "acct"
  = ([ListThreads {| lp_q := None; lp_labelIds := Some ["INBOX"];
                     lp_maxResults := 2; lp_pageToken := None |};
      BatchThreads ["A"; "B"] "token"],
     Ok Sample.expectedPage).
Proof. reflexivity. Qed.

(** C1, as stated, fails on the Graph-style controller: the message
    fetch of conversation [B] is rejected while that of [A] succeeds,
    and the whole call is rejected instead of answering with [A]. *)
Lemma outlook_fetch_failure_rejects_page :
  Sample.graphFailingB (Outlook.conversationsRequest Sample.outlookQuery)
    = Ok Sample.conversationsPage /\
  Sample.graphFailingB (api (Outlook.threadsPath "A"))
    = Ok (Sample.messagesOf "A") /\
  Sample.graphFailingB (api (Outlook.threadsPath "B"))
    = Err (Rejected "503 Service Unavailable") /\
  outcome (Outlook.getOutlookThreads Sample.stores Sample.outlookQuery
             Sample.graphFailingB "token" "acct")
    = Err (Rejected "503 Service Unavailable") /\
  ~ (exists out,
       outcome (Outlook.getOutlookThreads Sample.stores Sample.outlookQuery
                  Sample.graphFailingB "token" "acct") = Ok out /\
       thread_ids out = ["A"]).
Proof.
  repeat split. intros (out & Hout & _). discriminate.
Qed.

(** C1, amended: in [getThreads], once the list call and the batch call
    have answered, the page is returned without error, a batch entry
    that carries no thread id (a thread that could not be fetched) is
    dropped and every other entry is retained; in [getOutlookThreads]
    the rejection of the message fetch of one conversation of the page
    rejects the whole call. *)
Theorem thread_fetch_failures w s (query : ThreadsQuery)
    (oquery : Outlook.Query) (graphClient : GraphClient)
    (accessToken emailAccountId : string) :
  accessToken <> "" ->
  (forall page batch,
     getThreadsWithNextPageToken w (listParams query) = Ok page ->
     getThreadsBatch w (listedIds page) accessToken = Ok batch ->
     exists out,
       outcome (getThreads w s query accessToken emailAccountId) = Ok out /\
       thread_ids out = omap retainedId batch) /\
  (forall response conv e,
     graphClient (Outlook.conversationsRequest oquery) = Ok response ->
     conv ∈ JS.or_nil (value response) ->
     graphClient (api (Outlook.threadsPath (gi_id conv))) = Err e ->
     exists e',
       outcome (Outlook.getOutlookThreads s oquery graphClient accessToken
                  emailAccountId) = Err e').
Proof.
  intros Htok. split.
  - intros page batch Hpage Hbatch.
    rewrite (getThreads_steps _ _ _ _ _ Htok), Hpage. simpl. rewrite Hbatch.
    eexists. split; [reflexivity|]. apply gmailThreadEntry_ids.
  - intros response conv e Hresp Hconv Hfail.
    rewrite (getOutlookThreads_steps _ _ _ _ _ Htok), Hresp. simpl.
    set (plans := findMany _ _ _ _).
    destruct (Promise_all_Err
                (Outlook.conversationEntry s graphClient emailAccountId plans
                   <$> JS.or_nil (value response))
                (Outlook.conversationEntry s graphClient emailAccountId plans conv)
                e) as [e' He'].
    + by apply list_elem_of_fmap_2.
    + rewrite conversationEntry_steps. simpl. by rewrite Hfail.
    + rewrite He'. eauto.
Qed.

Lemma thread_fetch_failures_witness :
  (exists out,
     outcome (getThreads Sample.gmail Sample.stores Sample.inboxQuery
                "token" "acct") = Ok out /\
     thread_ids out = ["A"]) /\
  (exists e',
     outcome (Outlook.getOutlookThreads Sample.stores Sample.outlookQuery
                Sample.graphFailingB "token" "acct") = Err e').
Proof.
  destruct (thread_fetch_failures Sample.gmail Sample.stores Sample.inboxQuery
              Sample.outlookQuery Sample.graphFailingB "token" "acct")
    as [Hg Ho]; [discriminate|].
  split.
  - apply (Hg {| gl_threads := Some [Sample.listed "A"; Sample.listed "B"];
                 gl_nextPageToken := Some "cursor-2" |}
              [Sample.loaded "A"; Sample.failed]); reflexivity.
  - apply (Ho Sample.conversationsPage (Sample.conversation "B")
              (Rejected "503 Service Unavailable")); try reflexivity.
    simpl. apply elem_of_cons. right. apply elem_of_cons. by left.
Defined.

(** * Membership and order of the page *)

Lemma getThreads_ids w s query accessToken emailAccountId out :
  outcome (getThreads w s query accessToken emailAccountId) = Ok out ->
  exists page batch,
    getThreadsWithNextPageToken w (listParams query) = Ok page /\
    getThreadsBatch w (listedIds page) accessToken = Ok batch /\
    thread_ids out = omap retainedId batch.
Proof.
  intros (page & batch & Hpage & Hbatch & ->)%getThreads_Ok.
  exists page, batch. unfold thread_ids. simpl.
  by rewrite gmailThreadEntry_ids.
Qed.

(** The join changes the threads' [plan] and [category] only: the
    identifiers of the page do not depend on the stores. *)
Lemma getThreads_ids_store_independent w s s' query accessToken emailAccountId
    out out' :
  outcome (getThreads w s query accessToken emailAccountId) = Ok out ->
  outcome (getThreads w s' query accessToken emailAccountId) = Ok out' ->
  thread_ids out = thread_ids out'.
Proof.
  intros (page & batch & Hpage & Hbatch & Hids)%getThreads_ids
         (page' & batch' & Hpage' & Hbatch' & Hids')%getThreads_ids.
  congruence.
Qed.

(** C4: whatever the automation records and the categories in the
    stores, the identifiers of the threads that [getThreads] returns are
    the retained identifiers of the batch answer for the listed page;
    each of them is the identifier of a batch entry and, the batch
    loader answering only for the identifiers it was asked for, one of
    the identifiers that the provider listed for the page. *)
Theorem join_soundness w s (query : ThreadsQuery)
    (accessToken emailAccountId : string) out :
  outcome (getThreads w s query accessToken emailAccountId) = Ok out ->
  exists page batch,
    getThreadsWithNextPageToken w (listParams query) = Ok page /\
    getThreadsBatch w (listedIds page) accessToken = Ok batch /\
    thread_ids out = omap retainedId batch /\
    (forall id, id ∈ thread_ids out -> id ∈ omap gt_id batch) /\
    (batchAnswersRequested w ->
     forall id, id ∈ thread_ids out -> id ∈ listedIds page).
Proof.
  intros (page & batch & Hpage & Hbatch & ->)%getThreads_ids.
  exists page, batch.
  assert (Hsub : forall id, id ∈ omap retainedId batch -> id ∈ omap gt_id batch).
  { intros id. apply sublist_subseteq, retained_sublist. }
  repeat split; try done.
  intros Hkeyed id Hin. eapply Hkeyed; eauto.
Qed.

Lemma join_soundness_witness :
  exists page,
    getThreadsWithNextPageToken Sample.gmail (listParams Sample.inboxQuery)
      = Ok page /\
    forall id, id ∈ thread_ids Sample.expectedPage -> id ∈ listedIds page.
Proof.
  destruct (join_soundness Sample.gmail Sample.stores Sample.inboxQuery
              "token" "acct" Sample.expectedPage)
    as (page & batch & Hpage & _ & _ & _ & Hlisted); [reflexivity|].
  exists page. split; [exact Hpage|].
  apply Hlisted, batchKeepsOrder_answersRequested, Sample_gmail_keeps_order.
Defined.

(** C5: the identifiers of the returned threads come in the order of
    the provider's answers, with entries removed and none moved: for
    [getThreads] they form a subsequence of the identifiers of the batch
    answer and, the batch loader keeping the order of its request, of
    the identifiers listed for the page; for [getOutlookThreads] they
    are the identifiers of the listed conversations, in their order. *)
Theorem order_preservation w s (query : ThreadsQuery) (oquery : Outlook.Query)
    (graphClient : GraphClient) (accessToken emailAccountId : string) :
  (forall out,
     outcome (getThreads w s query accessToken emailAccountId) = Ok out ->
     exists page batch,
       getThreadsWithNextPageToken w (listParams query) = Ok page /\
       getThreadsBatch w (listedIds page) accessToken = Ok batch /\
       thread_ids out `sublist_of` omap gt_id batch /\
       (batchKeepsOrder w -> thread_ids out `sublist_of` listedIds page)) /\
  (forall out,
     outcome (Outlook.getOutlookThreads s oquery graphClient accessToken
                emailAccountId) = Ok out ->
     exists response,
       graphClient (Outlook.conversationsRequest oquery) = Ok response /\
       thread_ids out = gi_id <$> JS.or_nil (value response) /\
       thread_ids out `sublist_of` gi_id <$> JS.or_nil (value response)).
Proof.
  split.
  - intros out (page & batch & Hpage & Hbatch & ->)%getThreads_ids.
    exists page, batch. repeat split; try done.
    + apply retained_sublist.
    + intros Horder. etrans; [apply retained_sublist|]. by eapply Horder.
  - intros out (response & Hresp & ->)%getOutlookThreads_ids.
    exists response. by repeat split.
Qed.

Lemma order_preservation_witness :
  thread_ids Sample.expectedPage `sublist_of` ["A"; "B"] /\
  (exists out,
     outcome (Outlook.getOutlookThreads Sample.stores Sample.outlookQuery
                Sample.graph "token" "acct") = Ok out /\
     thread_ids out `sublist_of` ["A"; "B"]).
Proof.
  destruct (order_preservation Sample.gmail Sample.stores Sample.inboxQuery
              Sample.outlookQuery Sample.graph "token" "acct") as [Hg Ho].
  split.
  - destruct (Hg Sample.expectedPage) as (page & batch & Hpage & _ & _ & Hsub);
      [reflexivity|].
    injection Hpage as <-. apply Hsub, Sample_gmail_keeps_order.
  - eexists. split; [reflexivity|].
    destruct (Ho _ eq_refl) as (response & Hresp & _ & Hsub).
    injection Hresp as <-. exact Hsub.
Defined.

(** * Snippets *)

(** C7, as stated, fails on the Graph-style controller: the snippet of
    a conversation with two messages is the body preview of the first
    message, not of the last one. *)
Lemma outlook_snippet_is_first_preview :
  exists out thread,
    outcome (Outlook.getOutlookThreads Sample.stores Sample.outlookQuery
               Sample.graph "token" "acct") = Ok out /\
    threads out !! 0%nat = Some thread /\
    (gi_bodyPreview <$> th_messages thread)
      = [Some "first preview"; Some "last preview"] /\
    th_snippet thread = "first preview" /\
    th_snippet thread
      <> JS.or_empty (last (th_messages thread) ≫= gi_bodyPreview).
Proof.
  eexists. eexists. repeat split. discriminate.
Qed.

Lemma or_empty_or_absent o : JS.or_empty (JS.or_absent o) = JS.or_empty o.
Proof.
  unfold JS.or_absent, JS.truthy, JS.truthy_str.
  destruct o as [x|]; [|reflexivity].
  by destruct (String.eqb_spec x "") as [->|].
Qed.

(** C7, amended: a thread returned by [getThreads] carries the decoded
    snippet of its own batch entry, whether or not that field is
    present and never that of a message; a thread returned by
    [getOutlookThreads] carries the messages that the provider answered
    for its conversation and, as snippet, the body preview of the first
    of them, or the empty string when there is none; the reply tracker
    reports the snippet of the last message. *)
Theorem snippet_sources w s (query : ThreadsQuery) (oquery : Outlook.Query)
    (graphClient : GraphClient) (accessToken emailAccountId : string)
    (parsed : list ParsedThread) :
  (forall out thread,
     outcome (getThreads w s query accessToken emailAccountId) = Ok out ->
     thread ∈ threads out ->
     exists page batch entry,
       getThreadsWithNextPageToken w (listParams query) = Ok page /\
       getThreadsBatch w (listedIds page) accessToken = Ok batch /\
       entry ∈ batch /\
       gt_id entry = Some (th_id thread) /\
       th_snippet thread = decodeSnippet w (gt_snippet entry)) /\
  (forall out thread,
     outcome (Outlook.getOutlookThreads s oquery graphClient accessToken
                emailAccountId) = Ok out ->
     thread ∈ threads out ->
     exists messagesRes,
       graphClient (api (Outlook.threadsPath (th_id thread))) = Ok messagesRes /\
       th_messages thread = JS.or_nil (value messagesRes) /\
       th_snippet thread =
         match JS.or_nil (value messagesRes) with
         | first :: _ => JS.or_empty (gi_bodyPreview first)
         | [] => ""
         end) /\
  rt_snippet <$> replyTrackerEmails parsed
  = (fun thread => pm_snippet <$> last (pt_messages thread)) <$> parsed.
Proof.
  repeat split.
  - intros out thread (page & batch & Hpage & Hbatch & ->)%getThreads_Ok Hin.
    simpl in Hin. apply list_elem_of_omap in Hin as (entry & Hentry & Hsome).
    exists page, batch, entry. repeat split; try done.
    + unfold gmailThreadEntry in Hsome.
      destruct (JS.truthy (gt_id entry)) eqn:Ht; [|discriminate].
      apply truthy_inv in Ht as (id & Hid & _). rewrite Hid in Hsome.
      by injection Hsome as <-.
    + unfold gmailThreadEntry in Hsome.
      destruct (JS.truthy (gt_id entry)); [|discriminate].
      by injection Hsome as <-.
  - intros out thread (response & _ & _ & Hall)%getOutlookThreads_Ok Hin.
    apply list_elem_of_lookup in Hin as [i Hi].
    destruct (Forall2_lookup_r _ _ _ _ _ Hall Hi) as (conv & _ & Hentry).
    apply conversationEntry_Ok
      in Hentry as (Hid & (messagesRes & Hget & Hmessages) & Hsnippet).
    exists messagesRes. rewrite Hid. repeat split; try done.
    rewrite Hsnippet, Hmessages, or_empty_or_absent.
    by destruct (JS.or_nil (value messagesRes)).
  - unfold replyTrackerEmails. rewrite <- list_fmap_compose.
    by apply list_fmap_ext.
Qed.

Lemma snippet_sources_witness :
  (forall thread,
     thread ∈ threads Sample.expectedPage ->
     exists entry,
       gt_id entry = Some (th_id thread) /\
       th_snippet thread = JS.or_empty (gt_snippet entry)) /\
  (exists out thread,
     outcome (Outlook.getOutlookThreads Sample.stores Sample.outlookQuery
                Sample.graph "token" "acct") = Ok out /\
     threads out !! 0%nat = Some thread /\
     Sample.graph (api (Outlook.threadsPath (th_id thread)))
       = Ok (Sample.messagesOf "A") /\
     th_messages thread = JS.or_nil (value (Sample.messagesOf "A")) /\
     th_snippet thread = "first preview") /\
  rt_snippet <$> replyTrackerEmails
                   [{| pt_id := "A";
                       pt_messages := Sample.parse (Sample.loaded "A") |}]
  = [Some "last"].
Proof.
  destruct (snippet_sources Sample.gmail Sample.stores Sample.inboxQuery
              Sample.outlookQuery Sample.graph "token" "acct"
              [{| pt_id := "A";
                  pt_messages := Sample.parse (Sample.loaded "A") |}])
    as (Hg & Ho & Hr).
  split; [|split].
  - intros thread Hin.
    destruct (Hg Sample.expectedPage thread)
      as (_ & _ & entry & _ & _ & _ & Hid & Hsnippet); [reflexivity|exact Hin|].
    exists entry. split; [exact Hid | exact Hsnippet].
  - eexists. eexists. split; [reflexivity|]. split; [reflexivity|].
    destruct (Ho _ _ eq_refl (proj2 (elem_of_cons _ _ _) (or_introl eq_refl)))
      as (messagesRes & Hget & Hmessages & Hsnippet).
    injection Hget as <-.
    split; [reflexivity|]. split; [exact Hmessages | exact Hsnippet].
  - exact Hr.
Defined.

(** * Further properties of the query translation *)

(** X1: a label id given with the query is the only label of the list
    call, whatever the type of the query, also for the types
    ["archive"] and ["all"] that otherwise carry no label. *)
Theorem label_id_overrides_type w s (query : ThreadsQuery)
    (accessToken emailAccountId label : string) :
  labelId query = Some label -> label <> "" -> accessToken <> "" ->
  exists params rest,
    calls_of (getThreads w s query accessToken emailAccountId)
    = ListThreads params :: rest /\
    lp_labelIds params = Some [label].
Proof.
  intros Hlabel Hne Htok.
  destruct (getThreads_calls w s query accessToken emailAccountId Htok)
    as (rest & Hcalls & _).
  exists (listParams query), rest. split; [done|].
  simpl. by rewrite Hlabel, (truthy_Some _ Hne).
Qed.

Lemma label_id_overrides_type_witness :
  type Demo.labelQuery = Some "archive" /\
  exists params rest,
    calls_of (getThreads Sample.gmail Sample.stores Demo.labelQuery
                "token" "acct")
    = ListThreads params :: rest /\
    lp_labelIds params = Some ["Label_42"].
Proof.
  split; [reflexivity|].
  apply (label_id_overrides_type Sample.gmail Sample.stores Demo.labelQuery
           "token" "acct" "Label_42"); (reflexivity || discriminate).
Defined.

(** X2: [getLabelIds] gives no label filter exactly for the types
    ["archive"] and ["all"]; for every other type, absent or not, it
    gives exactly one label. *)
Theorem label_filter_shape (type : option string) :
  (getLabelIds type = None <-> type = Some "archive" \/ type = Some "all") /\
  (forall labels, getLabelIds type = Some labels -> length labels = 1%nat).
Proof.
  destruct type as [t|].
  - unfold getLabelIds. split.
    + split.
      * repeat match goal with
               | |- context [String.eqb t ?c] =>
                   destruct (String.eqb_spec t c) as [->|?];
                   [first [done | by auto]|]
               end.
        by destruct (JS.truthy_str t).
      * by intros [[= ->]|[= ->]].
    + intros labels.
      repeat match goal with
             | |- context [String.eqb t ?c] =>
                 destruct (String.eqb t c); [by intros [= <-]|]
             end.
      by destruct (orb _ _); intros [= <-].
  - split; [|by intros labels [= <-]].
    split; [discriminate | by intros [[=]|[=]]].
Qed.

Lemma label_filter_shape_witness :
  getLabelIds (Some "all") = None /\ length ["SENT"] = 1%nat.
Proof.
  split.
  - apply (proj1 (label_filter_shape (Some "all"))). by right.
  - apply (proj2 (label_filter_shape (Some "sent")) ["SENT"]). reflexivity.
Defined.

(** X3: without a free-text query, a sender gives the search string
    [from:<sender>] on the list call, also for a query of type
    ["archive"]: the sender goes before the type. *)
Theorem sender_goes_before_type w s (query : ThreadsQuery)
    (accessToken emailAccountId sender : string) :
  JS.truthy (q query) = false ->
  fromEmail query = Some sender -> sender <> "" -> accessToken <> "" ->
  exists params rest,
    calls_of (getThreads w s query accessToken emailAccountId)
    = ListThreads params :: rest /\
    lp_q params = Some ("from:" +:+ sender).
Proof.
  intros Hq Hfrom Hne Htok.
  destruct (getThreads_calls w s query accessToken emailAccountId Htok)
    as (rest & Hcalls & _).
  exists (listParams query), rest. split; [done|].
  simpl. unfold getQuery. by rewrite Hq, Hfrom, (truthy_Some _ Hne).
Qed.

Lemma sender_goes_before_type_witness :
  type Demo.senderArchiveQuery = Some "archive" /\
  exists params rest,
    calls_of (getThreads Sample.gmail Sample.stores Demo.senderArchiveQuery
                "token" "acct")
    = ListThreads params :: rest /\
    lp_q params = Some "from:x@y.com".
Proof.
  split; [reflexivity|].
  apply (sender_goes_before_type Sample.gmail Sample.stores
           Demo.senderArchiveQuery "token" "acct" "x@y.com");
    (reflexivity || discriminate).
Defined.

(** X4: [getQuery] leaves the search string out exactly when the query
    has no free-text query, no sender, and a type other than
    ["archive"]. *)
Theorem search_string_absent_iff (query : ThreadsQuery) :
  getQuery query = None <->
  JS.truthy (q query) = false /\ JS.truthy (fromEmail query) = false /\
  type query <> Some "archive".
Proof.
  unfold getQuery. split.
  - destruct (JS.truthy (q query)) eqn:Hq.
    { apply truthy_inv in Hq as (text & -> & _). discriminate. }
    destruct (JS.truthy (fromEmail query)); [discriminate|].
    case_bool_decide; [discriminate | done].
  - intros (-> & -> & Htype). by rewrite bool_decide_eq_false_2.
Qed.

Lemma search_string_absent_iff_witness : getQuery Sample.inboxQuery = None.
Proof.
  apply (search_string_absent_iff Sample.inboxQuery).
  repeat split; (reflexivity || discriminate).
Defined.

(** X5: the page size sent to either provider is the limit of the query
    when that is a number other than 0, and 50 when the limit is absent
    or 0; it is never 0, and no other bound is applied. *)
Theorem page_size w s (query : ThreadsQuery) (oquery : Outlook.Query)
    (graphClient : GraphClient) (accessToken emailAccountId : string) :
  accessToken <> "" ->
  (exists params rest,
     calls_of (getThreads w s query accessToken emailAccountId)
     = ListThreads params :: rest /\
     lp_maxResults params <> 0 /\
     (forall n, limit query = Some n -> n <> 0 -> lp_maxResults params = n) /\
     (limit query = None \/ limit query = Some 0 -> lp_maxResults params = 50)) /\
  (exists request rest size,
     calls_of (Outlook.getOutlookThreads s oquery graphClient accessToken
                 emailAccountId)
     = GraphGet request :: rest /\
     gr_top request = Some size /\ size <> 0 /\
     (forall n, Outlook.limit oquery = Some n -> n <> 0 -> size = n) /\
     (Outlook.limit oquery = None \/ Outlook.limit oquery = Some 0 ->
      size = 50)).
Proof.
  assert (Hnum : forall o : option Z,
             JS.num_or o 50 <> 0 /\
             (forall n, o = Some n -> n <> 0 -> JS.num_or o 50 = n) /\
             (o = None \/ o = Some 0 -> JS.num_or o 50 = 50)).
  { intros [n|]; simpl.
    - destruct (Z.eqb_spec n 0) as [->|Hn]; repeat split; try done.
      + by intros n [= <-].
      + by intros n' [= <-].
      + intros [[=]|[= ->]]; done.
    - repeat split; done. }
  intros Htok. split.
  - destruct (getThreads_calls w s query accessToken emailAccountId Htok)
      as (rest & Hcalls & _).
    exists (listParams query), rest. split; [done|]. apply Hnum.
  - destruct (getOutlookThreads_calls s oquery graphClient accessToken
                emailAccountId Htok) as (rest & Hcalls & _).
    exists (Outlook.conversationsRequest oquery), rest,
      (JS.num_or (Outlook.limit oquery) 50).
    split; [done|]. split; [|apply Hnum].
    unfold Outlook.conversationsRequest.
    destruct (JS.truthy (Outlook.getFilter oquery));
      by destruct (JS.truthy (Outlook.nextPageToken oquery)).
Qed.

Lemma page_size_witness :
  (exists params rest,
     calls_of (getThreads Sample.gmail Sample.stores Sample.archiveQuery
                 "token" "acct")
     = ListThreads params :: rest /\ lp_maxResults params = 50) /\
  (exists request rest,
     calls_of (Outlook.getOutlookThreads Sample.stores Sample.outlookQuery
                 Sample.graph "token" "acct")
     = GraphGet request :: rest /\ gr_top request = Some 2).
Proof.
  destruct (page_size Sample.gmail Sample.stores Sample.archiveQuery
              Sample.outlookQuery Sample.graph "token" "acct")
    as [Hg Ho]; [discriminate|].
  destruct Hg as (params & rest & Hcalls & _ & _ & Hdefault).
  destruct Ho as (request & rest' & size & Hcalls' & Htop & _ & Hsize & _).
  split.
  - exists params, rest. split; [exact Hcalls|]. apply Hdefault. by left.
  - exists request, rest'. split; [exact Hcalls'|].
    rewrite Htop. f_equal. apply Hsize; [reflexivity | discriminate].
Defined.

(** X6: the Graph-style request carries a filter exactly when the
    free-text query or the sender is set; with one of them only, the
    filter is that one's sub-filter alone. *)
Theorem graph_filter_presence (oquery : Outlook.Query) :
  (gr_filter (Outlook.conversationsRequest oquery) = None <->
   JS.truthy (Outlook.q oquery) = false /\
   JS.truthy (Outlook.fromEmail oquery) = false) /\
  (forall text, Outlook.q oquery = Some text -> text <> "" ->
     JS.truthy (Outlook.fromEmail oquery) = false ->
     gr_filter (Outlook.conversationsRequest oquery)
     = Some (Outlook.subjectFilter text)) /\
  (forall sender, Outlook.fromEmail oquery = Some sender -> sender <> "" ->
     JS.truthy (Outlook.q oquery) = false ->
     gr_filter (Outlook.conversationsRequest oquery)
     = Some (Outlook.fromFilter sender)).
Proof.
  unfold Outlook.conversationsRequest, Outlook.getFilter.
  repeat split.
  - destruct (JS.truthy (Outlook.q oquery)) eqn:Hq;
      destruct (JS.truthy (Outlook.fromEmail oquery)) eqn:Hf;
      destruct (JS.truthy (Outlook.nextPageToken oquery)); simpl;
      done.
  - destruct (JS.truthy (Outlook.q oquery)) eqn:Hq;
      destruct (JS.truthy (Outlook.fromEmail oquery)) eqn:Hf;
      destruct (JS.truthy (Outlook.nextPageToken oquery)); simpl;
      done.
  - intros [-> ->]. simpl.
    by destruct (JS.truthy (Outlook.nextPageToken oquery)).
  - intros text -> Hne ->. rewrite (truthy_Some _ Hne). simpl.
    by destruct (JS.truthy (Outlook.nextPageToken oquery)).
  - intros sender -> Hne ->. rewrite (truthy_Some _ Hne). simpl.
    by destruct (JS.truthy (Outlook.nextPageToken oquery)).
Qed.

Lemma graph_filter_presence_witness :
  gr_filter (Outlook.conversationsRequest Sample.outlookQuery) = None.
Proof.
  apply (proj1 (graph_filter_presence Sample.outlookQuery)).
  split; reflexivity.
Defined.

(** * Provider calls and provider failures *)

(** X7: a rejected list call rejects [getThreads] with the same error
    and no batch call is made; a rejected batch call rejects it with
    the batch's error after exactly those two calls. *)
Theorem gmail_failures_propagate w s (query : ThreadsQuery)
    (accessToken emailAccountId : string) :
  accessToken <> "" ->
  (forall e,
     getThreadsWithNextPageToken w (listParams query) = Err e ->
     getThreads w s query accessToken emailAccountId
     = ([ListThreads (listParams query)], Err e)) /\
  (forall page e,
     getThreadsWithNextPageToken w (listParams query) = Ok page ->
     getThreadsBatch w (listedIds page) accessToken = Err e ->
     getThreads w s query accessToken emailAccountId
     = ([ListThreads (listParams query);
         BatchThreads (listedIds page) accessToken], Err e)).
Proof.
  intros Htok. split.
  - intros e He. by rewrite (getThreads_steps _ _ _ _ _ Htok), He.
  - intros page e Hpage He.
    rewrite (getThreads_steps _ _ _ _ _ Htok), Hpage. simpl. by rewrite He.
Qed.

Lemma gmail_failures_propagate_witness :
  outcome (getThreads Demo.gmailListDown Sample.stores Sample.inboxQuery
             "token" "acct") = Err (Rejected "429") /\
  getThreads Demo.gmailBatchDown Sample.stores Sample.inboxQuery "token" "acct"
  = ([ListThreads (listParams Sample.inboxQuery);
      BatchThreads ["A"; "B"] "token"], Err (Rejected "batch failed")).
Proof.
  split.
  - rewrite (proj1 (gmail_failures_propagate Demo.gmailListDown Sample.stores
                      Sample.inboxQuery "token" "acct" ltac:(discriminate))
               (Rejected "429") eq_refl).
    reflexivity.
  - apply (proj2 (gmail_failures_propagate Demo.gmailBatchDown Sample.stores
                    Sample.inboxQuery "token" "acct" ltac:(discriminate))
             {| gl_threads := Some [Sample.listed "A"; Sample.listed "B"];
                gl_nextPageToken := Some "cursor-2" |}
             (Rejected "batch failed")); reflexivity.
Defined.

(** X8: when the list call answers, [getThreads] makes exactly one more
    provider call, the batch call for the identifiers of the listed
    threads (in their order, threads without id left out) under the
    caller's access token; this also holds for a page on which nothing
    was listed, for which the batch call carries no identifier. *)
Theorem gmail_batch_request w s (query : ThreadsQuery)
    (accessToken emailAccountId : string) page :
  accessToken <> "" ->
  getThreadsWithNextPageToken w (listParams query) = Ok page ->
  calls_of (getThreads w s query accessToken emailAccountId)
  = [ListThreads (listParams query);
     BatchThreads (omap gt_id (JS.or_nil (gl_threads page))) accessToken] /\
  (JS.or_nil (gl_threads page) = [] ->
   calls_of (getThreads w s query accessToken emailAccountId)
   = [ListThreads (listParams query); BatchThreads [] accessToken]).
Proof.
  intros Htok Hpage.
  assert (Hids : listedIds page = omap gt_id (JS.or_nil (gl_threads page))).
  { unfold listedIds. by destruct (gl_threads page). }
  rewrite (getThreads_steps _ _ _ _ _ Htok), Hpage. simpl. rewrite Hids.
  split; [done|]. by intros ->.
Qed.

Lemma gmail_batch_request_witness :
  calls_of (getThreads Sample.gmail Sample.stores Sample.inboxQuery
              "token" "acct")
  = [ListThreads (listParams Sample.inboxQuery);
     BatchThreads ["A"; "B"] "token"].
Proof.
  apply (gmail_batch_request Sample.gmail Sample.stores Sample.inboxQuery
           "token" "acct"
           {| gl_threads := Some [Sample.listed "A"; Sample.listed "B"];
              gl_nextPageToken := Some "cursor-2" |});
    (reflexivity || discriminate).
Defined.

Lemma Promise_all_conversation_calls s graphClient emailAccountId plans
    (conversations : list GraphItem) :
  calls_of (Promise_all
              (Outlook.conversationEntry s graphClient emailAccountId plans
                 <$> conversations))
  = (fun conv => GraphGet (api (Outlook.threadsPath (gi_id conv))))
      <$> conversations.
Proof.
  rewrite Promise_all_calls.
  induction conversations as [|conv convs IH]; [reflexivity|].
  csimpl. rewrite conversationEntry_steps. simpl. by rewrite IH.
Qed.

(** X9: when the request for the page answers, [getOutlookThreads]
    makes one message fetch per listed conversation, in the order of the
    page, whether or not the fetches succeed: one call more than there
    are conversations. *)
Theorem outlook_fetch_per_conversation s (oquery : Outlook.Query)
    (graphClient : GraphClient) (accessToken emailAccountId : string)
    response :
  accessToken <> "" ->
  graphClient (Outlook.conversationsRequest oquery) = Ok response ->
  calls_of (Outlook.getOutlookThreads s oquery graphClient accessToken
              emailAccountId)
  = GraphGet (Outlook.conversationsRequest oquery)
      :: ((fun conv => GraphGet (api (Outlook.threadsPath (gi_id conv))))
            <$> JS.or_nil (value response)) /\
  length (calls_of (Outlook.getOutlookThreads s oquery graphClient
                      accessToken emailAccountId))
  = S (length (JS.or_nil (value response))).
Proof.
  intros Htok Hresp.
  rewrite (getOutlookThreads_steps _ _ _ _ _ Htok), Hresp. simpl.
  rewrite Promise_all_conversation_calls. split; [done|].
  simpl. by rewrite length_fmap.
Qed.

Lemma outlook_fetch_per_conversation_witness :
  calls_of (Outlook.getOutlookThreads Sample.stores Sample.outlookQuery
              Sample.graphFailingB "token" "acct")
  = [GraphGet (Outlook.conversationsRequest Sample.outlookQuery);
     GraphGet (api "/me/conversations/A/threads");
     GraphGet (api "/me/conversations/B/threads")].
Proof.
  apply (outlook_fetch_per_conversation Sample.stores Sample.outlookQuery
           Sample.graphFailingB "token" "acct" Sample.conversationsPage);
    (reflexivity || discriminate).
Defined.

(** X10: a rejected request for the page rejects [getOutlookThreads]
    with the same error and no conversation is fetched; a page without
    conversations is answered with no thread, the provider's cursor and
    no further call. *)
Theorem outlook_page_failure_or_empty s (oquery : Outlook.Query)
    (graphClient : GraphClient) (accessToken emailAccountId : string) :
  accessToken <> "" ->
  (forall e,
     graphClient (Outlook.conversationsRequest oquery) = Err e ->
     Outlook.getOutlookThreads s oquery graphClient accessToken emailAccountId
     = ([GraphGet (Outlook.conversationsRequest oquery)], Err e)) /\
  (forall response,
     graphClient (Outlook.conversationsRequest oquery) = Ok response ->
     JS.or_nil (value response) = [] ->
     Outlook.getOutlookThreads s oquery graphClient accessToken emailAccountId
     = ([GraphGet (Outlook.conversationsRequest oquery)],
        Ok {| threads := [];
              page_nextPageToken := JS.or_absent (odata_nextLink response) |})).
Proof.
  intros Htok. split.
  - intros e He. by rewrite (getOutlookThreads_steps _ _ _ _ _ Htok), He.
  - intros response Hresp Hempty.
    rewrite (getOutlookThreads_steps _ _ _ _ _ Htok), Hresp. simpl.
    by rewrite Hempty.
Qed.

Lemma outlook_page_failure_or_empty_witness :
  Outlook.getOutlookThreads Sample.stores Sample.outlookQuery Demo.graphDown
    "token" "acct"
  = ([GraphGet (Outlook.conversationsRequest Sample.outlookQuery)],
     Err (Rejected "401")) /\
  Outlook.getOutlookThreads Sample.stores Sample.outlookQuery Demo.graphEmpty
    "token" "acct"
  = ([GraphGet (Outlook.conversationsRequest Sample.outlookQuery)],
     Ok {| threads := []; page_nextPageToken := None |}).
Proof.
  split.
  - apply (proj1 (outlook_page_failure_or_empty Sample.stores
                    Sample.outlookQuery Demo.graphDown "token" "acct"
                    ltac:(discriminate))); reflexivity.
  - apply (proj2 (outlook_page_failure_or_empty Sample.stores
                    Sample.outlookQuery Demo.graphEmpty "token" "acct"
                    ltac:(discriminate))
             {| value := None; odata_nextLink := None |}); reflexivity.
Defined.

Lemma Promise_all_all_Ok {A B} (f : A -> M B) (l : list A) :
  (forall x, x ∈ l -> exists r, outcome (f x) = Ok r) ->
  exists rs, outcome (Promise_all (f <$> l)) = Ok rs /\ length rs = length l.
Proof.
  induction l as [|x l IH]; intros Hall.
  - by exists [].
  - destruct (Hall x) as [r Hr]; [by left|].
    destruct IH as (rs & Hrs & Hlen).
    { intros y Hy. apply Hall. by right. }
    exists (r :: rs). split; [|simpl; by rewrite Hlen].
    apply Promise_all_Ok. csimpl. constructor; [done|].
    by apply Promise_all_Ok.
Qed.

(** X11: when the request for the page and the message fetch of every
    listed conversation answer, [getOutlookThreads] returns a page with
    one thread per conversation, none dropped, in the order of the
    page. *)
Theorem outlook_all_fetches_answer s (oquery : Outlook.Query)
    (graphClient : GraphClient) (accessToken emailAccountId : string)
    response :
  accessToken <> "" ->
  graphClient (Outlook.conversationsRequest oquery) = Ok response ->
  (forall conv, conv ∈ JS.or_nil (value response) ->
     exists messagesRes,
       graphClient (api (Outlook.threadsPath (gi_id conv))) = Ok messagesRes) ->
  exists out,
    outcome (Outlook.getOutlookThreads s oquery graphClient accessToken
               emailAccountId) = Ok out /\
    thread_ids out = gi_id <$> JS.or_nil (value response).
Proof.
  intros Htok Hresp Hall.
  set (plans := findMany s emailAccountId
                  (gi_id <$> JS.or_nil (value response)) shownStatuses).
  destruct (Promise_all_all_Ok
              (Outlook.conversationEntry s graphClient emailAccountId plans)
              (JS.or_nil (value response))) as (ts & Hts & _).
  { intros conv Hconv. destruct (Hall conv Hconv) as [messagesRes Hm].
    rewrite conversationEntry_steps. simpl. rewrite Hm. eauto. }
  assert (Hout : outcome (Outlook.getOutlookThreads s oquery graphClient
                            accessToken emailAccountId)
                 = Ok {| threads := ts;
                         page_nextPageToken :=
                           JS.or_absent (odata_nextLink response) |}).
  { rewrite (getOutlookThreads_steps _ _ _ _ _ Htok), Hresp. simpl.
    fold plans. by rewrite Hts. }
  eexists. split; [exact Hout|].
  apply getOutlookThreads_ids in Hout as (response' & Hresp' & Hids).
  congruence.
Qed.

Lemma outlook_all_fetches_answer_witness :
  exists out,
    outcome (Outlook.getOutlookThreads Sample.stores Sample.outlookQuery
               Sample.graph "token" "acct") = Ok out /\
    thread_ids out = ["A"; "B"].
Proof.
  apply (outlook_all_fetches_answer Sample.stores Sample.outlookQuery
           Sample.graph "token" "acct" Sample.conversationsPage);
    [discriminate | reflexivity |].
  intros conv Hconv. simpl in Hconv.
  apply elem_of_cons in Hconv as [->|Hconv]; [by eexists|].
  apply elem_of_cons in Hconv as [->|Hconv]; [by eexists|].
  by apply elem_of_nil in Hconv.
Defined.

(** * The join with the stores *)

(** Looking a thread up among the rows found for a page: the first row
    of the store shown for the thread, provided the thread's id was
    among the ids of the query. *)
Lemma findPlan_findMany s emailAccountId (ids : list string) id :
  findPlan (findMany s emailAccountId ids shownStatuses) id =
    if decide (id ∈ ids)
    then select <$> List.find (shownFor emailAccountId id) (executedRule s)
    else None.
Proof.
  unfold findMany, findPlan.
  induction (executedRule s) as [|row rows IH].
  - by destruct (decide (id ∈ ids)).
  - rewrite filter_cons. simpl List.find at 2. unfold shownFor at 1.
    destruct (decide (er_emailAccountId row = emailAccountId
                      /\ er_threadId row ∈ ids
                      /\ er_status row ∈ shownStatuses))
      as [(Hacct & Hin & Hstatus)|Hno].
    + csimpl. destruct (String.eqb_spec (er_threadId row) id) as [Heq|Hne].
      * subst id. rewrite decide_True by done.
        by rewrite bool_decide_eq_true_2.
      * rewrite bool_decide_eq_false_2 by (intros (_ & ? & _); done).
        apply IH.
    + case_bool_decide as Hshown; [|apply IH].
      destruct Hshown as (Hacct & Hid & Hstatus). subst id.
      rewrite decide_False; [|by intros Hin; apply Hno].
      rewrite IH. apply decide_False. by intros Hin; apply Hno.
Qed.

(** X12: every thread that [getOutlookThreads] returns carries the
    first row of the rule-execution table, in the table's order, that
    belongs to the account, is for that thread and is pending or
    skipped (none when there is no such row), and the category stored
    for the account and the thread. *)
Theorem outlook_join s (oquery : Outlook.Query) (graphClient : GraphClient)
    (accessToken emailAccountId : string) out thread :
  outcome (Outlook.getOutlookThreads s oquery graphClient accessToken
             emailAccountId) = Ok out ->
  thread ∈ threads out ->
  th_plan thread
  = select <$> List.find (shownFor emailAccountId (th_id thread))
                 (executedRule s) /\
  th_category thread = categories s !! (emailAccountId, th_id thread).
Proof.
  intros (response & _ & _ & Hall)%getOutlookThreads_Ok Hin.
  apply list_elem_of_lookup in Hin as [i Hi].
  destruct (Forall2_lookup_r _ _ _ _ _ Hall Hi) as (conv & Hconv & Hentry).
  rewrite conversationEntry_steps in Hentry. simpl in Hentry.
  destruct (graphClient (api (Outlook.threadsPath (gi_id conv))));
    [|discriminate].
  injection Hentry as <-. simpl. split; [|reflexivity].
  rewrite findPlan_findMany, decide_True; [done|].
  apply list_elem_of_fmap_2, list_elem_of_lookup. eauto.
Qed.

Lemma outlook_join_witness :
  exists out thread,
    outcome (Outlook.getOutlookThreads Sample.stores Sample.outlookQuery
               Sample.graph "token" "acct") = Ok out /\
    threads out !! 0%nat = Some thread /\
    th_plan thread = Some (select Sample.pendingForA) /\
    th_category thread = Some "newsletter".
Proof.
  eexists. eexists. split; [reflexivity|]. split; [reflexivity|].
  refine (outlook_join Sample.stores Sample.outlookQuery Sample.graph
            "token" "acct" _ _ eq_refl _).
  apply elem_of_cons. by left.
Defined.

(** X13: every thread that [getThreads] returns carries the category
    stored for the account and the thread, and as its plan the first
    pending or skipped row of the account for that thread, provided the
    thread's id was among the listed ids; a thread that the batch
    answered under an id that was not listed carries no plan. *)
Theorem gmail_join w s (query : ThreadsQuery)
    (accessToken emailAccountId : string) out thread :
  outcome (getThreads w s query accessToken emailAccountId) = Ok out ->
  thread ∈ threads out ->
  exists page,
    getThreadsWithNextPageToken w (listParams query) = Ok page /\
    th_plan thread
    = (if decide (th_id thread ∈ listedIds page)
       then select <$> List.find (shownFor emailAccountId (th_id thread))
                         (executedRule s)
       else None) /\
    th_category thread = categories s !! (emailAccountId, th_id thread).
Proof.
  intros (page & batch & Hpage & Hbatch & ->)%getThreads_Ok Hin.
  exists page. split; [done|]. simpl in Hin.
  apply list_elem_of_omap in Hin as (entry & _ & Hentry).
  unfold gmailThreadEntry in Hentry.
  destruct (JS.truthy (gt_id entry)); [|discriminate].
  injection Hentry as <-. simpl. split; [|reflexivity].
  apply findPlan_findMany.
Qed.

Lemma gmail_join_witness :
  exists thread,
    threads Sample.expectedPage !! 0%nat = Some thread /\
    th_plan thread = Some (select Sample.pendingForA) /\
    th_category thread = Some "newsletter".
Proof.
  eexists. split; [reflexivity|].
  destruct (gmail_join Sample.gmail Sample.stores Sample.inboxQuery
              "token" "acct" Sample.expectedPage _ eq_refl
              (proj2 (list_elem_of_singleton _ _) eq_refl))
    as (page & Hpage & Hplan & Hcat).
  injection Hpage as <-. split; [exact Hplan | exact Hcat].
Defined.

(** Related tasks make related arrays under [Promise.all]. *)
Lemma Promise_all_related {A B B'} (R : B -> B' -> Prop)
    (f : A -> M B) (g : A -> M B') (l : list A) :
  (forall x, calls_of (f x) = calls_of (g x) /\
             match outcome (f x), outcome (g x) with
             | Ok b, Ok b' => R b b'
             | Err e, Err e' => e = e'
             | _, _ => False
             end) ->
  calls_of (Promise_all (f <$> l)) = calls_of (Promise_all (g <$> l)) /\
  match outcome (Promise_all (f <$> l)), outcome (Promise_all (g <$> l)) with
  | Ok bs, Ok bs' => Forall2 R bs bs'
  | Err e, Err e' => e = e'
  | _, _ => False
  end.
Proof.
  intros Hrel. induction l as [|x l [IHc IHo]]; [by split; constructor|].
  csimpl. destruct (Hrel x) as [Hc Ho].
  destruct (f x) as [c1 r1], (g x) as [c2 r2].
  destruct (Promise_all (f <$> l)) as [cs1 rs1],
           (Promise_all (g <$> l)) as [cs2 rs2].
  simpl in *. subst. split; [done|].
  destruct r1, r2, rs1, rs2; try done. by constructor.
Qed.

Lemma gmailThreadEntry_sameContent w s s' emailAccountId plans plans' entry :
  match gmailThreadEntry w s emailAccountId plans entry,
        gmailThreadEntry w s' emailAccountId plans' entry with
  | Some t, Some t' => sameContent t t'
  | None, None => True
  | _, _ => False
  end.
Proof.
  unfold gmailThreadEntry. by destruct (JS.truthy (gt_id entry)).
Qed.

(** X14: the content of the stores changes neither the provider calls
    of a controller, nor whether it fails and with what, nor the
    identifiers, messages, snippets and cursor of the page: the stores
    contribute the plans and categories only. *)
Theorem stores_leave_content w (s s' : Stores) (query : ThreadsQuery)
    (oquery : Outlook.Query) (graphClient : GraphClient)
    (accessToken emailAccountId : string) :
  (calls_of (getThreads w s query accessToken emailAccountId)
   = calls_of (getThreads w s' query accessToken emailAccountId) /\
   sameOutcome (outcome (getThreads w s query accessToken emailAccountId))
     (outcome (getThreads w s' query accessToken emailAccountId))) /\
  (calls_of (Outlook.getOutlookThreads s oquery graphClient accessToken
               emailAccountId)
   = calls_of (Outlook.getOutlookThreads s' oquery graphClient accessToken
                 emailAccountId) /\
   sameOutcome
     (outcome (Outlook.getOutlookThreads s oquery graphClient accessToken
                 emailAccountId))
     (outcome (Outlook.getOutlookThreads s' oquery graphClient accessToken
                 emailAccountId))).
Proof.
  destruct (decide (accessToken = "")) as [->|Htok]; [by repeat split|].
  split.
  - rewrite !(getThreads_steps _ _ _ _ _ Htok).
    destruct (getThreadsWithNextPageToken w (listParams query)) as [page|e];
      [|by split].
    simpl. split; [done|].
    destruct (getThreadsBatch w (listedIds page) accessToken) as [batch|e];
      [|done].
    simpl. split; [|done].
    induction batch as [|entry batch IH]; [constructor|]. csimpl.
    pose proof (gmailThreadEntry_sameContent w s s' emailAccountId
                  (findMany s emailAccountId (listedIds page) shownStatuses)
                  (findMany s' emailAccountId (listedIds page) shownStatuses)
                  entry) as Hentry.
    destruct (gmailThreadEntry w s _ _ entry),
             (gmailThreadEntry w s' _ _ entry); try done.
    by constructor.
  - rewrite !(getOutlookThreads_steps _ _ _ _ _ Htok).
    destruct (graphClient (Outlook.conversationsRequest oquery))
      as [response|e]; [|by split].
    cbn zeta.
    set (plans := findMany s _ _ _). set (plans' := findMany s' _ _ _).
    destruct (Promise_all_related sameContent
                (Outlook.conversationEntry s graphClient emailAccountId plans)
                (Outlook.conversationEntry s' graphClient emailAccountId plans')
                (JS.or_nil (value response))) as [Hc Ho].
    { intros conv. rewrite !conversationEntry_steps. simpl. split; [done|].
      by destruct (graphClient (api (Outlook.threadsPath (gi_id conv)))). }
    simpl. rewrite Hc. split; [done|].
    by destruct (outcome (Promise_all _)), (outcome (Promise_all _)).
Qed.

(** X15: every thread that [getThreads] returns has a non-empty
    identifier. *)
Theorem gmail_ids_nonempty w s (query : ThreadsQuery)
    (accessToken emailAccountId : string) out id :
  outcome (getThreads w s query accessToken emailAccountId) = Ok out ->
  id ∈ thread_ids out -> id <> "".
Proof.
  intros (page & batch & _ & _ & ->)%getThreads_ids Hin.
  apply list_elem_of_omap in Hin as (entry & _ & Hid).
  by apply or_absent_inv in Hid as [_ Hne].
Qed.

Lemma gmail_ids_nonempty_witness : "A" <> "".
Proof.
  apply (gmail_ids_nonempty Sample.gmail Sample.stores Sample.inboxQuery
           "token" "acct" Sample.expectedPage "A"); [reflexivity|].
  apply list_elem_of_singleton. reflexivity.
Defined.

(** * The Graph-style route *)

(** X16: for an account with an access token the route runs
    [getOutlookThreads] on the parsed query with the account's client
    and token: it makes the controller's provider calls, answers the
    controller's page under status 200, and lets a failure of the
    controller through as thrown. *)
Theorem outlook_route_with_token (rw : Outlook.RouteWorld) (s : Stores)
    (emailAccountId : string) (searchParams : Outlook.SearchParams)
    (oquery : Outlook.Query) (graphClient : GraphClient) (token : string) :
  Outlook.threadsQuery_parse rw searchParams = Ok oquery ->
  Outlook.getGraphClientAndAccessTokenForEmail rw emailAccountId
    = Ok (graphClient, Some token) ->
  token <> "" ->
  calls_of (Outlook.GET rw s emailAccountId searchParams)
  = calls_of (Outlook.getOutlookThreads s oquery graphClient token
                emailAccountId) /\
  outcome (Outlook.GET rw s emailAccountId searchParams)
  = match outcome (Outlook.getOutlookThreads s oquery graphClient token
                     emailAccountId) with
    | Ok page => Ok {| Outlook.status := 200;
                       Outlook.body := Outlook.ThreadsBody page |}
    | Err e => Err e
    end.
Proof.
  intros Hparse Hlookup Htok. unfold Outlook.GET.
  rewrite Hparse, Hlookup. cbn [Outlook.lift bind app].
  rewrite (truthy_Some _ Htok). cbn [negb JS.or_empty].
  destruct (Outlook.getOutlookThreads s oquery graphClient token
              emailAccountId) as [calls [page|e]]; simpl;
    by rewrite ?app_nil_r.
Qed.

Lemma outlook_route_with_token_witness :
  exists page,
    outcome (Outlook.GET Demo.routeWithToken Sample.stores "acct"
               Sample.searchParams)
    = Ok {| Outlook.status := 200; Outlook.body := Outlook.ThreadsBody page |}
    /\ thread_ids page = ["A"; "B"].
Proof.
  destruct (outlook_route_with_token Demo.routeWithToken Sample.stores "acct"
              Sample.searchParams Sample.outlookQuery Sample.graph "token")
    as [_ Hout]; [reflexivity | reflexivity | discriminate |].
  eexists. split; [exact Hout | reflexivity].
Defined.

(** X17: whatever the collaborators do, a response of the route has
    status 200: a missing token is answered under 200, and every other
    failure leaves the route as thrown, never as a response with an
    error status. *)
Theorem outlook_route_status (rw : Outlook.RouteWorld) (s : Stores)
    (emailAccountId : string) (searchParams : Outlook.SearchParams)
    response :
  outcome (Outlook.GET rw s emailAccountId searchParams) = Ok response ->
  Outlook.status response = 200.
Proof.
  unfold Outlook.GET.
  destruct (Outlook.threadsQuery_parse rw searchParams) as [oquery|e];
    [|discriminate].
  destruct (Outlook.getGraphClientAndAccessTokenForEmail rw emailAccountId)
    as [[graphClient accessToken]|e]; [|discriminate].
  cbn [Outlook.lift bind app].
  destruct (JS.truthy accessToken); cbn [negb].
  - destruct (Outlook.getOutlookThreads s oquery graphClient
                (JS.or_empty accessToken) emailAccountId)
      as [calls [page|e]]; simpl; [|discriminate].
    by intros [= <-].
  - by intros [= <-].
Qed.

Lemma outlook_route_status_witness :
  Outlook.status
    {| Outlook.status := 200;
       Outlook.body := Outlook.ErrorBody "Account not found" |} = 200.
Proof.
  apply (outlook_route_status Sample.routeWithoutToken Sample.stores "acct"
           Sample.searchParams). reflexivity.
Defined.

(** * The reply tracker's route *)

(** X18: once the API key is accepted, the reply tracker's handler
    never throws: it answers with status 200, 400 or 500. *)
Theorem reply_tracker_answers (w : ReplyTracker.World)
    (request : ReplyTracker.Request) auth :
  ReplyTracker.validateApiKeyAndGetGmailClient w request = Ok auth ->
  exists response,
    snd (ReplyTracker.GET w request) = Ok response /\
    (ReplyTracker.status response = 200
     \/ ReplyTracker.status response = 400
     \/ ReplyTracker.status response = 500).
Proof.
  intros Hauth. unfold ReplyTracker.GET. rewrite Hauth.
  destruct (ReplyTracker.safeParse w (ReplyTracker.rq_searchParams request))
    as [data|]; [|eexists; split; [reflexivity | by right; left]].
  destruct (ReplyTracker.tryBlock w auth data) as [events [thrown|response]]
    eqn:Htry.
  - eexists. split; [reflexivity | by right; right].
  - exists response. split; [reflexivity|]. left.
    unfold ReplyTracker.tryBlock in Htry.
    repeat case_match; simplify_eq. reflexivity.
Qed.

Lemma reply_tracker_answers_witness :
  exists response,
    snd (ReplyTracker.GET Demo.trackerStoreDown Demo.request) = Ok response /\
    (ReplyTracker.status response = 200
     \/ ReplyTracker.status response = 400
     \/ ReplyTracker.status response = 500).
Proof.
  apply (reply_tracker_answers Demo.trackerStoreDown Demo.request Demo.auth).
  reflexivity.
Defined.

(** X19: a rejected API key is thrown before the query is looked at;
    with an accepted key, a query that the schema rejects is answered
    with status 400 and [Invalid query parameters], without any call of
    the tracker store or the batch loader and without a log line. *)
Theorem reply_tracker_invalid_query (w : ReplyTracker.World)
    (request : ReplyTracker.Request) :
  (forall e,
     ReplyTracker.validateApiKeyAndGetGmailClient w request = Err e ->
     ReplyTracker.GET w request = ([], Err e)) /\
  (forall auth,
     ReplyTracker.validateApiKeyAndGetGmailClient w request = Ok auth ->
     ReplyTracker.safeParse w (ReplyTracker.rq_searchParams request) = None ->
     ReplyTracker.GET w request
     = ([], Ok {| ReplyTracker.status := 400;
                  ReplyTracker.body :=
                    ReplyTracker.ErrorBody "Invalid query parameters" |})).
Proof.
  unfold ReplyTracker.GET. split.
  - by intros e ->.
  - by intros auth -> ->.
Qed.

Lemma reply_tracker_invalid_query_witness :
  ReplyTracker.GET Demo.trackerBadQuery Demo.request
  = ([], Ok {| ReplyTracker.status := 400;
               ReplyTracker.body :=
                 ReplyTracker.ErrorBody "Invalid query parameters" |}).
Proof.
  apply (proj2 (reply_tracker_invalid_query Demo.trackerBadQuery Demo.request)
           Demo.auth); reflexivity.
Defined.

(** X20: with an accepted key and a valid query, the handler answers
    500 with [Failed to retrieve emails] and logs one error when the
    type is neither [needs-reply] nor [needs-follow-up] (no store or
    loader call is made then), when the tracker store rejects (the
    loader is not called then), or when the batch loader rejects; in
    each case nothing is logged as retrieved. *)
Theorem reply_tracker_failures (w : ReplyTracker.World)
    (request : ReplyTracker.Request) auth data :
  ReplyTracker.validateApiKeyAndGetGmailClient w request = Ok auth ->
  ReplyTracker.safeParse w (ReplyTracker.rq_searchParams request) = Some data ->
  let failed thrown calls :=
    ReplyTracker.GET w request
    = (calls ++ [ReplyTracker.LogError "Error retrieving emails needing reply"
                   (ReplyTracker.auth_userId auth) thrown],
       Ok {| ReplyTracker.status := 500;
             ReplyTracker.body :=
               ReplyTracker.ErrorBody "Failed to retrieve emails" |}) in
  (ReplyTracker.qd_type data <> "needs-reply" ->
   ReplyTracker.qd_type data <> "needs-follow-up" ->
   failed ReplyTracker.InvalidType []) /\
  (forall type e,
     ReplyTracker.getType (ReplyTracker.qd_type data) = inr type ->
     let lookup :=
       {| ReplyTracker.tq_userId := ReplyTracker.auth_userId auth;
          ReplyTracker.tq_type := type;
          ReplyTracker.tq_page := ReplyTracker.qd_page data;
          ReplyTracker.tq_timeRange := ReplyTracker.qd_timeRange data |} in
     (ReplyTracker.getPaginatedThreadTrackers w lookup = Err e ->
      failed (ReplyTracker.Upstream e) [ReplyTracker.TrackerLookup lookup]) /\
     (forall page,
        ReplyTracker.getPaginatedThreadTrackers w lookup = Ok page ->
        let threadIds :=
          ReplyTracker.tracker_threadId <$> ReplyTracker.trackers page in
        ReplyTracker.getThreadsBatchAndParse w threadIds
          (ReplyTracker.auth_accessToken auth) false = Err e ->
        failed (ReplyTracker.Upstream e)
          [ReplyTracker.TrackerLookup lookup;
           ReplyTracker.BatchAndParse threadIds
             (ReplyTracker.auth_accessToken auth) false])).
Proof.
  intros Hauth Hparse failed. subst failed. cbv beta.
  unfold ReplyTracker.GET. rewrite Hauth, Hparse.
  unfold ReplyTracker.tryBlock. split.
  - intros Hreply Hfollow. unfold ReplyTracker.getType.
    destruct (String.eqb_spec (ReplyTracker.qd_type data) "needs-reply");
      [done|].
    by destruct (String.eqb_spec (ReplyTracker.qd_type data) "needs-follow-up").
  - intros type e ->. cbv zeta. split.
    + by intros ->.
    + intros page -> Hbatch. simpl. by rewrite Hbatch.
Qed.

Lemma reply_tracker_failures_witness :
  ReplyTracker.GET Demo.trackerStoreDown Demo.request
  = ([ReplyTracker.TrackerLookup
        {| ReplyTracker.tq_userId := "user-1";
           ReplyTracker.tq_type := ReplyTracker.NEEDS_REPLY;
           ReplyTracker.tq_page := 1;
           ReplyTracker.tq_timeRange := "all" |};
      ReplyTracker.LogError "Error retrieving emails needing reply" "user-1"
        (ReplyTracker.Upstream (Rejected "database unreachable"))],
     Ok {| ReplyTracker.status := 500;
           ReplyTracker.body :=
             ReplyTracker.ErrorBody "Failed to retrieve emails" |}).
Proof.
  destruct (reply_tracker_failures Demo.trackerStoreDown Demo.request
              Demo.auth
              {| ReplyTracker.qd_type := "needs-reply";
                 ReplyTracker.qd_page := 1;
                 ReplyTracker.qd_timeRange := "all" |} eq_refl eq_refl)
    as [_ Hrest].
  destruct (Hrest ReplyTracker.NEEDS_REPLY (Rejected "database unreachable")
              eq_refl) as [Hstore _].
  apply Hstore. reflexivity.
Defined.

(** X21: with an accepted key and a valid query of a known type, when
    the tracker store and the batch loader answer, the handler asks the
    store for the caller's trackers of that type, page and time range,
    asks the loader for exactly the trackers' threads under the
    caller's access token, and answers 200 with one email per loaded
    thread, in the loader's order, and with the store's count, which
    is not the number of emails; the number of emails is what it
    logs. *)
Theorem reply_tracker_success (w : ReplyTracker.World)
    (request : ReplyTracker.Request) auth data type page loaded :
  ReplyTracker.validateApiKeyAndGetGmailClient w request = Ok auth ->
  ReplyTracker.safeParse w (ReplyTracker.rq_searchParams request) = Some data ->
  ReplyTracker.getType (ReplyTracker.qd_type data) = inr type ->
  let lookup :=
    {| ReplyTracker.tq_userId := ReplyTracker.auth_userId auth;
       ReplyTracker.tq_type := type;
       ReplyTracker.tq_page := ReplyTracker.qd_page data;
       ReplyTracker.tq_timeRange := ReplyTracker.qd_timeRange data |} in
  let threadIds :=
    ReplyTracker.tracker_threadId <$> ReplyTracker.trackers page in
  ReplyTracker.getPaginatedThreadTrackers w lookup = Ok page ->
  ReplyTracker.getThreadsBatchAndParse w threadIds
    (ReplyTracker.auth_accessToken auth) false = Ok loaded ->
  exists emails,
    ReplyTracker.GET w request
    = ([ReplyTracker.TrackerLookup lookup;
        ReplyTracker.BatchAndParse threadIds
          (ReplyTracker.auth_accessToken auth) false;
        ReplyTracker.LogInfo "Retrieved emails needing reply"
          (ReplyTracker.auth_userId auth) (length loaded)],
       Ok {| ReplyTracker.status := 200;
             ReplyTracker.body :=
               ReplyTracker.EmailsBody emails (ReplyTracker.count page) |}) /\
    rt_threadId <$> emails = pt_id <$> loaded.
Proof.
  intros Hauth Hparse Htype lookup threadIds Hpage Hloaded.
  exists (replyTrackerEmails loaded). split.
  - unfold ReplyTracker.GET, ReplyTracker.tryBlock.
    rewrite Hauth, Hparse, Htype. fold lookup. rewrite Hpage. simpl.
    fold threadIds. rewrite Hloaded. simpl.
    unfold replyTrackerEmails. by rewrite length_fmap.
  - unfold replyTrackerEmails. rewrite <- list_fmap_compose.
    by apply list_fmap_ext.
Qed.

Lemma reply_tracker_success_witness :
  exists emails,
    ReplyTracker.GET Demo.tracker Demo.request
    = ([ReplyTracker.TrackerLookup
          {| ReplyTracker.tq_userId := "user-1";
             ReplyTracker.tq_type := ReplyTracker.NEEDS_REPLY;
             ReplyTracker.tq_page := 1;
             ReplyTracker.tq_timeRange := "all" |};
        ReplyTracker.BatchAndParse ["A"; "B"] "token" false;
        ReplyTracker.LogInfo "Retrieved emails needing reply" "user-1" 1],
       Ok {| ReplyTracker.status := 200;
             ReplyTracker.body := ReplyTracker.EmailsBody emails 7 |}) /\
    rt_threadId <$> emails = ["A"].
Proof.
  apply (reply_tracker_success Demo.tracker Demo.request Demo.auth
           {| ReplyTracker.qd_type := "needs-reply";
              ReplyTracker.qd_page := 1;
              ReplyTracker.qd_timeRange := "all" |}
           ReplyTracker.NEEDS_REPLY
           {| ReplyTracker.trackers :=
                [{| ReplyTracker.tracker_threadId := "A" |};
                 {| ReplyTracker.tracker_threadId := "B" |}];
              ReplyTracker.count := 7 |}
           [Demo.thread "A"]); reflexivity.
Defined.


(** * The rule picker *)

Lemma matchedId_nothing (result : option ReportMistake.TestResult) :
  result ≫= ReportMistake.tr_rule = None ->
  ReportMistake.matchedId result = ReportMistake.NONE_RULE_ID.
Proof. unfold ReportMistake.matchedId. by intros ->. Qed.

Lemma matchedId_rule (result : option ReportMistake.TestResult) rule :
  result ≫= ReportMistake.tr_rule = Some rule ->
  ReportMistake.rule_id rule <> "" ->
  ReportMistake.matchedId result = ReportMistake.rule_id rule.
Proof.
  unfold ReportMistake.matchedId. intros -> Hne. simpl.
  by rewrite (truthy_str_true _ Hne).
Qed.

Lemma offeredRules_rules (rules : list ReportMistake.Rule) (id : string) :
  filter (fun choice => ReportMistake.choice_id choice <> id)
    (ReportMistake.choiceOf <$> rules)
  = ReportMistake.choiceOf
      <$> filter (fun rule => ReportMistake.rule_id rule <> id) rules.
Proof.
  induction rules as [|rule rules IH]; [reflexivity|].
  csimpl. rewrite !filter_cons. simpl.
  destruct (decide (ReportMistake.rule_id rule <> id)); csimpl;
    by rewrite IH.
Qed.

(** X23: when no rule matched, the picker offers the user's rules and
    not the entry [None]; when a rule matched, it offers the entry
    [None] first and then the user's other rules, and not the matched
    rule. *)
Theorem offered_rules (data : option (list ReportMistake.Rule))
    (result : option ReportMistake.TestResult) :
  (result ≫= ReportMistake.tr_rule = None ->
   ReportMistake.offeredRules data result
   = ReportMistake.choiceOf
       <$> filter (fun rule => ReportMistake.rule_id rule
                                <> ReportMistake.NONE_RULE_ID)
             (JS.or_nil data)) /\
  (forall rule,
     result ≫= ReportMistake.tr_rule = Some rule ->
     ReportMistake.rule_id rule <> "" ->
     ReportMistake.rule_id rule <> ReportMistake.NONE_RULE_ID ->
     ReportMistake.offeredRules data result
     = {| ReportMistake.choice_id := ReportMistake.NONE_RULE_ID;
          ReportMistake.choice_name := "None" |}
         :: (ReportMistake.choiceOf
               <$> filter (fun other => ReportMistake.rule_id other
                                        <> ReportMistake.rule_id rule)
                     (JS.or_nil data))).
Proof.
  unfold ReportMistake.offeredRules. split.
  - intros Hnone. rewrite (matchedId_nothing _ Hnone), filter_cons.
    rewrite decide_False by (by intros H; apply H).
    apply offeredRules_rules.
  - intros rule Hrule Hne Hnone.
    rewrite (matchedId_rule _ _ Hrule Hne), filter_cons.
    rewrite decide_True by (by intros H; apply Hnone).
    by rewrite offeredRules_rules.
Qed.

Lemma offered_rules_witness :
  ReportMistake.offeredRules (Some Demo.rules) Demo.matchedNews
  = [{| ReportMistake.choice_id := "__NONE__";
        ReportMistake.choice_name := "None" |};
     {| ReportMistake.choice_id := "r-bill";
        ReportMistake.choice_name := "Receipts" |}].
Proof.
  destruct (offered_rules (Some Demo.rules) Demo.matchedNews) as [_ Hmatched].
  rewrite (Hmatched
             {| ReportMistake.rule_id := "r-news";
                ReportMistake.rule_name := "Newsletters";
                ReportMistake.rule_instructions := "archive newsletters" |});
    (reflexivity || discriminate).
Defined.

(** X24: pressing the button of an offered rule other than [None]
    selects a rule of the user's list: the first rule with that id,
    which is not the matched rule. *)
Theorem picked_rule_is_found (data : option (list ReportMistake.Rule))
    (result : option ReportMistake.TestResult) choice :
  choice ∈ ReportMistake.offeredRules data result ->
  ReportMistake.choice_id choice <> ReportMistake.NONE_RULE_ID ->
  exists rule,
    ReportMistake.correctRule data (Some (ReportMistake.choice_id choice))
    = Some rule /\
    ReportMistake.rule_id rule = ReportMistake.choice_id choice /\
    ReportMistake.rule_id rule <> ReportMistake.matchedId result.
Proof.
  unfold ReportMistake.offeredRules, ReportMistake.correctRule.
  intros [Hne Hin]%list_elem_of_filter Hnone.
  apply elem_of_cons in Hin as [->|Hin]; [done|].
  apply list_elem_of_fmap in Hin as (picked & -> & Hpicked).
  destruct data as [rules|]; [|by apply elem_of_nil in Hpicked].
  simpl in *.
  destruct (List.find _ rules) as [rule|] eqn:Hfind.
  - apply find_some in Hfind as [_ Hid].
    apply bool_decide_eq_true_1 in Hid. injection Hid as Hid.
    exists rule. by rewrite Hid.
  - apply list_elem_of_In in Hpicked.
    apply (find_none _ _ Hfind) in Hpicked.
    by apply bool_decide_eq_false_1 in Hpicked.
Qed.

Lemma picked_rule_is_found_witness :
  exists rule,
    ReportMistake.correctRule (Some Demo.rules) (Some "r-bill") = Some rule /\
    ReportMistake.rule_id rule = "r-bill" /\
    ReportMistake.rule_id rule <> ReportMistake.matchedId Demo.matchedNews.
Proof.
  apply (picked_rule_is_found (Some Demo.rules) Demo.matchedNews
           {| ReportMistake.choice_id := "r-bill";
              ReportMistake.choice_name := "Receipts" |});
    [|discriminate].
  vm_compute. apply elem_of_cons. right. apply elem_of_cons. by left.
Defined.

(** * Continuation tokens *)

(** C6: the continuation token of the query reaches the provider
    unchanged (as [pageToken] of the one list call, respectively as the
    [skipToken] header of the request for the page; an absent or empty
    token sends none), and the [nextPageToken] of the response is the
    provider's cursor (absent when the provider gives none): a page is
    returned with that cursor whenever the provider's calls answer, and
    no returned page carries another one. *)
Theorem continuation_token_is_opaque w s (query : ThreadsQuery)
    (oquery : Outlook.Query) (graphClient : GraphClient)
    (accessToken emailAccountId : string) :
  accessToken <> "" ->
  (* the Gmail-style controller *)
  ((exists params rest,
      calls_of (getThreads w s query accessToken emailAccountId)
      = ListThreads params :: rest /\
      (forall params', ListThreads params' ∉ rest) /\
      (forall token, nextPageToken query = Some token -> token <> "" ->
                     lp_pageToken params = Some token) /\
      (JS.truthy (nextPageToken query) = false -> lp_pageToken params = None)) /\
   (forall out,
      outcome (getThreads w s query accessToken emailAccountId) = Ok out ->
      exists page,
        getThreadsWithNextPageToken w (listParams query) = Ok page /\
        page_nextPageToken out = gl_nextPageToken page) /\
   (forall page batch,
      getThreadsWithNextPageToken w (listParams query) = Ok page ->
      getThreadsBatch w (listedIds page) accessToken = Ok batch ->
      exists out,
        outcome (getThreads w s query accessToken emailAccountId) = Ok out /\
        page_nextPageToken out = gl_nextPageToken page)) /\
  (* the Graph-style controller *)
  ((exists request rest,
      calls_of (Outlook.getOutlookThreads s oquery graphClient accessToken
                  emailAccountId)
      = GraphGet request :: rest /\
      (forall c, c ∈ rest -> exists id, c = GraphGet (api (Outlook.threadsPath id))) /\
      (forall token, Outlook.nextPageToken oquery = Some token -> token <> "" ->
                     gr_headers request = [("skipToken", token)]) /\
      (JS.truthy (Outlook.nextPageToken oquery) = false ->
       gr_headers request = [])) /\
   (forall out,
      outcome (Outlook.getOutlookThreads s oquery graphClient accessToken
                 emailAccountId) = Ok out ->
      exists response,
        graphClient (Outlook.conversationsRequest oquery) = Ok response /\
        (forall cursor, odata_nextLink response = Some cursor -> cursor <> "" ->
                        page_nextPageToken out = Some cursor) /\
        (JS.truthy (odata_nextLink response) = false ->
         page_nextPageToken out = None)) /\
   (forall response,
      graphClient (Outlook.conversationsRequest oquery) = Ok response ->
      (forall conv, conv ∈ JS.or_nil (value response) ->
         exists messagesRes,
           graphClient (api (Outlook.threadsPath (gi_id conv)))
           = Ok messagesRes) ->
      exists out,
        outcome (Outlook.getOutlookThreads s oquery graphClient accessToken
                   emailAccountId) = Ok out /\
        (forall cursor, odata_nextLink response = Some cursor -> cursor <> "" ->
                        page_nextPageToken out = Some cursor) /\
        (JS.truthy (odata_nextLink response) = false ->
         page_nextPageToken out = None))).
Proof.
  intros Htok. split; (split; [|split]).
  - destruct (getThreads_calls w s query accessToken emailAccountId Htok)
      as (rest & Hcalls & Hrest).
    exists (listParams query), rest. repeat split; try done.
    + intros token Hq Hne. simpl. rewrite Hq. by apply or_absent_Some.
    + intros Hq. simpl. by apply or_absent_falsy.
  - intros out. rewrite (getThreads_steps _ _ _ _ _ Htok).
    destruct (getThreadsWithNextPageToken w (listParams query)) as [page|e];
      [|discriminate]. simpl.
    destruct (getThreadsBatch w (listedIds page) accessToken) as [batch|e];
      [|discriminate].
    intros [= <-]. by exists page.
  - intros page batch Hpage Hbatch.
    rewrite (getThreads_steps _ _ _ _ _ Htok), Hpage. simpl. rewrite Hbatch.
    eexists. split; reflexivity.
  - destruct (getOutlookThreads_calls s oquery graphClient accessToken
                emailAccountId Htok) as (rest & Hcalls & Hrest).
    exists (Outlook.conversationsRequest oquery), rest.
    repeat split; try done.
    + intros token Hq Hne. rewrite conversationsRequest_headers, Hq.
      by rewrite (truthy_Some _ Hne).
    + intros Hq. by rewrite conversationsRequest_headers, Hq.
  - intros out. rewrite (getOutlookThreads_steps _ _ _ _ _ Htok).
    destruct (graphClient (Outlook.conversationsRequest oquery))
      as [response|e]; [|discriminate]. simpl.
    destruct (outcome (Promise_all _)) as [ts|e]; [|discriminate].
    intros [= <-]. exists response. repeat split.
    + intros cursor Hc Hne. simpl. rewrite Hc. by apply or_absent_Some.
    + intros Hc. simpl. by apply or_absent_falsy.
  - intros response Hresp Hall.
    set (plans := findMany s emailAccountId
                    (gi_id <$> JS.or_nil (value response)) shownStatuses).
    destruct (Promise_all_all_Ok
                (Outlook.conversationEntry s graphClient emailAccountId plans)
                (JS.or_nil (value response))) as (ts & Hts & _).
    { intros conv Hconv. destruct (Hall conv Hconv) as [messagesRes Hm].
      rewrite conversationEntry_steps. simpl. rewrite Hm. eauto. }
    rewrite (getOutlookThreads_steps _ _ _ _ _ Htok), Hresp. simpl.
    fold plans. rewrite Hts. eexists. split; [reflexivity|]. split.
    + intros cursor Hc Hne. simpl. rewrite Hc. by apply or_absent_Some.
    + intros Hc. simpl. by apply or_absent_falsy.
Qed.

Lemma continuation_token_is_opaque_witness :
  (exists params rest,
     calls_of (getThreads Sample.gmail Sample.stores Sample.nextQuery
                 "token" "acct")
     = ListThreads params :: rest /\
     lp_pageToken params = Some "cursor-1") /\
  (exists out,
     outcome (getThreads Sample.gmail Sample.stores Sample.nextQuery
                "token" "acct") = Ok out /\
     page_nextPageToken out = Some "cursor-2") /\
  (exists request rest,
     calls_of (Outlook.getOutlookThreads Sample.stores Sample.outlookNextQuery
                 Sample.graph "token" "acct")
     = GraphGet request :: rest /\
     gr_headers request = [("skipToken", "cursor-1")]) /\
  (exists out,
     outcome (Outlook.getOutlookThreads Sample.stores Sample.outlookNextQuery
                Sample.graph "token" "acct") = Ok out /\
     page_nextPageToken out = Some "https://graph.example/next").
Proof.
  destruct (continuation_token_is_opaque Sample.gmail Sample.stores
              Sample.nextQuery Sample.outlookNextQuery Sample.graph
              "token" "acct") as [(Hg & _ & Hgpage) (Ho & _ & Hopage)];
    [discriminate|].
  destruct Hg as (params & rest & Hcalls & _ & Htoken & _).
  destruct Ho as (request & rest' & Hcalls' & _ & Htoken' & _).
  split; [|split; [|split]].
  - exists params, rest. split; [exact Hcalls|].
    apply Htoken; [reflexivity | discriminate].
  - apply (Hgpage {| gl_threads := Some [Sample.listed "A"; Sample.listed "B"];
                     gl_nextPageToken := Some "cursor-2" |}
                  [Sample.loaded "A"; Sample.failed]); reflexivity.
  - exists request, rest'. split; [exact Hcalls'|].
    apply Htoken'; [reflexivity | discriminate].
  - destruct (Hopage Sample.conversationsPage eq_refl)
      as (out & Hout & Hcursor & _).
    + intros conv Hconv. simpl in Hconv.
      apply elem_of_cons in Hconv as [->|Hconv]; [by eexists|].
      apply elem_of_cons in Hconv as [->|Hconv]; [by eexists|].
      by apply elem_of_nil in Hconv.
    + exists out. split; [exact Hout|].
      apply Hcursor; [reflexivity | discriminate].
Defined.
